(** * go-calibre: the chapter-extraction pipeline

    A shallow embedding of the chapter-extraction core of go-calibre
    (packages [models], [ncx] and [calibre]) and the properties of it that
    the specification states.

    Conventions of the embedding.
    - A Go [string] is a sequence of bytes: [gostring := list ascii].
      [len(s)] is [length s]; a slice [s[i:j]] is [slice s i j].
    - A Go [int] is a [Z]; every integer the pipeline computes is a length,
      a position or a nesting depth, far from the 64-bit bounds.
    - An index result of [strings.Index] is an [option nat]: [None] is -1.
    - The functions of package [strings] that are Unicode-aware
      ([TrimSpace], [Fields], [ToLower], [ToUpper]) are modelled on their
      ASCII behaviour: a byte above 127 is neither white space nor cased.
      A [range] loop over a string is modelled byte by byte; on valid UTF-8
      this agrees with the rune loop wherever the loop only tests for ASCII
      runes and copies the others.
    - What the program gets from outside (a zip archive, the XML decoder,
      the ebook-convert command) is an explicit input of the function that
      uses it. *)

From Stdlib Require Import Ascii String ZArith Lia Bool Arith Sorted List.
From Stdlib Require DecimalString.
Import ListNotations.

Local Open Scope list_scope.
Set Warnings "-register-all".

(** ** Package strings *)

Module GoStrings.

Definition gostring := list ascii.

(** A string literal of the source. *)
Definition lit (s : string) : gostring := list_ascii_of_string s.

Definition TAB : ascii := "009"%char.
Definition LF : ascii := "010"%char.
Definition VT : ascii := "011"%char.
Definition FF : ascii := "012"%char.
Definition CR : ascii := "013"%char.
Definition SP : ascii := " "%char.
Definition LT : ascii := "<"%char.
Definition GT : ascii := ">"%char.

Fixpoint streq (a b : gostring) : bool :=
  match a, b with
  | [], [] => true
  | x :: a', y :: b' => Ascii.eqb x y && streq a' b'
  | _, _ => false
  end.

Definition isEmpty (s : gostring) : bool :=
  match s with [] => true | _ => false end.

(** [s[i:j]] for [i <= j <= len(s)]. *)
Definition slice (s : gostring) (i j : nat) : gostring :=
  firstn (j - i) (skipn i s).

Fixpoint HasPrefix (s prefix : gostring) : bool :=
  match prefix, s with
  | [], _ => true
  | _ :: _, [] => false
  | a :: p', b :: s' => Ascii.eqb a b && HasPrefix s' p'
  end.

Definition HasSuffix (s suffix : gostring) : bool :=
  HasPrefix (rev s) (rev suffix).

Definition TrimSuffix (s suffix : gostring) : gostring :=
  if HasSuffix s suffix then firstn (length s - length suffix) s else s.

(** [strings.Index]: the offset of the first occurrence, [None] for -1. *)
Fixpoint Index (s substr : gostring) : option nat :=
  if HasPrefix s substr then Some 0
  else match s with
       | [] => None
       | _ :: s' => option_map S (Index s' substr)
       end.

Definition Contains (s substr : gostring) : bool :=
  match Index s substr with Some _ => true | None => false end.

(** White space of [strings.TrimSpace] and [strings.Fields] (ASCII). *)
Definition isSpace (c : ascii) : bool :=
  Ascii.eqb c TAB || Ascii.eqb c LF || Ascii.eqb c VT
  || Ascii.eqb c FF || Ascii.eqb c CR || Ascii.eqb c SP.

Fixpoint TrimLeft (s : gostring) : gostring :=
  match s with
  | [] => []
  | c :: s' => if isSpace c then TrimLeft s' else s
  end.

Definition TrimRight (s : gostring) : gostring := rev (TrimLeft (rev s)).

Definition TrimSpace (s : gostring) : gostring := TrimRight (TrimLeft s).

Definition isUpper (c : ascii) : bool :=
  (65 <=? N_of_ascii c)%N && (N_of_ascii c <=? 90)%N.
Definition isLower (c : ascii) : bool :=
  (97 <=? N_of_ascii c)%N && (N_of_ascii c <=? 122)%N.
Definition lowerByte (c : ascii) : ascii :=
  if isUpper c then ascii_of_N (N_of_ascii c + 32) else c.
Definition upperByte (c : ascii) : ascii :=
  if isLower c then ascii_of_N (N_of_ascii c - 32) else c.

Definition ToLower (s : gostring) : gostring := map lowerByte s.
Definition ToUpper (s : gostring) : gostring := map upperByte s.

(** [strings.Split(s, sep)] for a separator of one byte, the only kind the
    program uses: [n] occurrences give [n+1] parts. *)
Fixpoint splitAcc (sep : ascii) (cur : gostring) (s : gostring) : list gostring :=
  match s with
  | [] => [rev cur]
  | c :: s' => if Ascii.eqb c sep then rev cur :: splitAcc sep [] s'
               else splitAcc sep (c :: cur) s'
  end.

Definition Split (s : gostring) (sep : ascii) : list gostring := splitAcc sep [] s.

(** [strings.SplitN(s, sep, 2)] for a separator of one byte: the part before
    the first separator and, when there is one, the rest after it. *)
Fixpoint SplitN2 (s : gostring) (sep : ascii) : gostring * option gostring :=
  match s with
  | [] => ([], None)
  | c :: s' =>
      if Ascii.eqb c sep then ([], Some s')
      else let '(a, b) := SplitN2 s' sep in (c :: a, b)
  end.

Fixpoint Join (elems : list gostring) (sep : gostring) : gostring :=
  match elems with
  | [] => []
  | [e] => e
  | e :: rest => e ++ sep ++ Join rest sep
  end.

(** [strings.Fields]: the maximal runs of bytes that are not white space. *)
Fixpoint fieldsAcc (cur : gostring) (s : gostring) : list gostring :=
  match s with
  | [] => match cur with [] => [] | _ => [rev cur] end
  | c :: s' =>
      if isSpace c
      then match cur with
           | [] => fieldsAcc [] s'
           | _ => rev cur :: fieldsAcc [] s'
           end
      else fieldsAcc (c :: cur) s'
  end.

Definition Fields (s : gostring) : list gostring := fieldsAcc [] s.

(** [strings.ReplaceAll(s, old, new)] for a non-empty [old]: the
    non-overlapping occurrences, leftmost first.  [skip] counts the bytes of
    the occurrence just replaced that are still to be passed over. *)
Fixpoint replaceFrom (old new : gostring) (skip : nat) (s : gostring) : gostring :=
  match s with
  | [] => []
  | c :: s' =>
      match skip with
      | S k => replaceFrom old new k s'
      | O => if HasPrefix s old
             then new ++ replaceFrom old new (length old - 1) s'
             else c :: replaceFrom old new 0 s'
      end
  end.

Definition ReplaceAll (s old new : gostring) : gostring := replaceFrom old new 0 s.

(** [fmt.Sprintf("%d", n)]. *)
Definition itoa (n : Z) : gostring :=
  lit (DecimalString.NilZero.string_of_int (Z.to_int n)).

End GoStrings.
Import GoStrings.

(** ** Package path/filepath *)

Module Filepath.

(** One path element met by [Clean], with the elements kept so far, last
    element first.  An element is removed only by a [..] that follows an
    element other than [..]; a rooted path drops a [..] it cannot apply. *)
Definition cleanStep (rooted : bool) (out : list gostring) (elem : gostring) : list gostring :=
  if isEmpty elem || streq elem (lit ".") then out
  else if streq elem (lit "..") then
    match out with
    | top :: below => if streq top (lit "..") then elem :: out else below
    | [] => if rooted then out else [elem]
    end
  else elem :: out.

(** [filepath.Clean] with the separator [/]: the shortest equivalent path by
    lexical processing. *)
Definition Clean (path : gostring) : gostring :=
  match path with
  | [] => lit "."
  | c :: _ =>
      let rooted := Ascii.eqb c "/"%char in
      let out := rev (fold_left (cleanStep rooted) (Split path "/"%char) []) in
      match rooted, out with
      | true, _ => "/"%char :: Join out (lit "/")
      | false, [] => lit "."
      | false, _ => Join out (lit "/")
      end
  end.

End Filepath.

(** ** Package regexp *)

Module Regexp.

(** The regular expressions of the program: every repetition in them is a
    repetition of one byte class. *)
Inductive regex : Type :=
| Lit (c : ascii)
| Cls (p : ascii -> bool)
| Seq (r1 r2 : regex)
| Alt (r1 r2 : regex)
| Rep (p : ascii -> bool) (lo : nat) (hi : option nat)
| BeginText
| BeginLine
| EndText
| EndLine
| Group (n : nat) (r : regex).

(** Where a match stands: the offset, the byte before it, and the groups
    closed so far, each with its start and end offsets. *)
Record ctx := mkCtx { pos : nat; prev : option ascii; caps : list (nat * (nat * nat)) }.

Definition ctx0 : ctx := mkCtx 0 None [].

Definition advance (c : ascii) (x : ctx) : ctx := mkCtx (S (pos x)) (Some c) (caps x).

Definition capture (n : nat) (from : ctx) (x : ctx) : ctx :=
  mkCtx (pos x) (prev x) ((n, (pos from, pos x)) :: caps x).

Section Run.
Context {A : Type}.

(** Greedy repetition [p{lo,hi}] followed by [k]: take one more byte while
    allowed, give one back each time the rest fails. *)
Fixpoint rep (p : ascii -> bool) (lo : nat) (hi : option nat)
    (k : ctx -> gostring -> option A) (x : ctx) (s : gostring) : option A :=
  let stop := match lo with O => k x s | S _ => None end in
  match s with
  | [] => stop
  | c :: s' =>
      if p c && match hi with Some O => false | _ => true end
      then match rep p (Nat.pred lo) (option_map Nat.pred hi) k (advance c x) s' with
           | Some v => Some v
           | None => stop
           end
      else stop
  end.

(** A backtracking match of [r] at the head of [s], then [k]: the first
    success in the order of preference of the syntax (leftmost alternative,
    longest repetition), which is the match Go's regexp reports. *)
Fixpoint run (r : regex) (k : ctx -> gostring -> option A) (x : ctx) (s : gostring) : option A :=
  match r with
  | Lit c =>
      match s with
      | c' :: s' => if Ascii.eqb c c' then k (advance c' x) s' else None
      | [] => None
      end
  | Cls p =>
      match s with
      | c' :: s' => if p c' then k (advance c' x) s' else None
      | [] => None
      end
  | Seq r1 r2 => run r1 (run r2 k) x s
  | Alt r1 r2 =>
      match run r1 k x s with
      | Some v => Some v
      | None => run r2 k x s
      end
  | Rep p lo hi => rep p lo hi k x s
  | BeginText => match prev x with None => k x s | Some _ => None end
  | BeginLine =>
      match prev x with
      | None => k x s
      | Some c => if Ascii.eqb c LF then k x s else None
      end
  | EndText => match s with [] => k x s | _ :: _ => None end
  | EndLine =>
      match s with
      | [] => k x s
      | c :: _ => if Ascii.eqb c LF then k x s else None
      end
  | Group n r1 => run r1 (fun x' s' => k (capture n x x') s') x s
  end.

End Run.

(** The match of [r] that starts exactly here, if any. *)
Definition matchAt (r : regex) (x : ctx) (s : gostring) : option ctx :=
  run r (fun x' _ => Some x') x s.

(** The leftmost match at or after here: its start offset and its end. *)
Fixpoint find (r : regex) (x : ctx) (s : gostring) : option (nat * ctx) :=
  match matchAt r x s with
  | Some x' => Some (pos x, x')
  | None =>
      match s with
      | [] => None
      | c :: s' => find r (advance c x) s'
      end
  end.

Definition MatchString (r : regex) (s : gostring) : bool :=
  match find r ctx0 s with Some _ => true | None => false end.

Definition groupOf (n : nat) (x : ctx) (s : gostring) : gostring :=
  match List.find (fun e => Nat.eqb (fst e) n) (caps x) with
  | Some (_, (i, j)) => slice s i j
  | None => []
  end.

(** [FindStringSubmatch] for an expression with [groups] groups: the whole
    match and the text of each group. *)
Definition FindStringSubmatch (r : regex) (groups : nat) (s : gostring) : list gostring :=
  match find r ctx0 s with
  | None => []
  | Some (i, x) => slice s i (pos x) :: map (fun n => groupOf n x s) (seq 1 groups)
  end.

(** [FindAllStringIndex(s, -1)]: the successive non-overlapping matches.
    [skip] counts the bytes of the last match still to be passed over;
    [prevEnd] is where the last match ended: an empty match is not reported
    right after another match. *)
Fixpoint findAll (r : regex) (skip : nat) (prevEnd : option nat) (x : ctx) (s : gostring)
    : list (nat * nat) :=
  let next skip' prevEnd' :=
    match s with
    | [] => []
    | c :: s' => findAll r skip' prevEnd' (advance c x) s'
    end in
  match skip with
  | S k => next k prevEnd
  | O =>
      match matchAt r x s with
      | None => next 0 prevEnd
      | Some x' =>
          if Nat.eqb (pos x') (pos x)
          then match prevEnd with
               | Some e => if Nat.eqb e (pos x) then next 0 (Some (pos x))
                           else (pos x, pos x) :: next 0 (Some (pos x))
               | None => (pos x, pos x) :: next 0 (Some (pos x))
               end
          else (pos x, pos x') :: next (pos x' - pos x - 1) (Some (pos x'))
      end
  end.

Definition FindAllStringIndex (r : regex) (s : gostring) : list (nat * nat) :=
  findAll r 0 None ctx0 s.

(** The loop of [Regexp.Split] over the matches. *)
Fixpoint splitLoop (s : gostring) (matches : list (nat * nat)) (beg end_ : nat)
    : list gostring * nat * nat :=
  match matches with
  | [] => ([], beg, end_)
  | (m0, m1) :: rest =>
      let '(strs, beg', end') := splitLoop s rest m1 m0 in
      ((if Nat.eqb m1 0 then strs else slice s beg m0 :: strs), beg', end')
  end.

(** [re.Split(s, -1)] for a non-empty expression. *)
Definition Split (r : regex) (s : gostring) : list gostring :=
  match s with
  | [] => [[]]
  | _ =>
      let '(strs, beg, end_) := splitLoop s (FindAllStringIndex r s) 0 0 in
      if Nat.eqb end_ (length s) then strs else strs ++ [skipn beg s]
  end.

(** Byte classes and abbreviations of the syntax. *)
Definition oneOf (set : string) (c : ascii) : bool :=
  existsb (Ascii.eqb c) (lit set).
Definition digit (c : ascii) : bool :=
  (48 <=? N_of_ascii c)%N && (N_of_ascii c <=? 57)%N.
(** [\s] is [[\t\n\f\r ]]. *)
Definition space (c : ascii) : bool :=
  Ascii.eqb c TAB || Ascii.eqb c LF || Ascii.eqb c FF || Ascii.eqb c CR || Ascii.eqb c SP.
(** [\w] is [[0-9A-Za-z_]]. *)
Definition word (c : ascii) : bool :=
  digit c || isUpper c || isLower c || Ascii.eqb c "_"%char.
(** [.] is any byte but a newline. *)
Definition dot (c : ascii) : bool := negb (Ascii.eqb c LF).

Definition star (p : ascii -> bool) : regex := Rep p 0 None.
Definition plus (p : ascii -> bool) : regex := Rep p 1 None.
Definition opt (p : ascii -> bool) : regex := Rep p 0 (Some 1).

Fixpoint seqs (rs : list regex) : regex :=
  match rs with
  | [] => Rep (fun _ => false) 0 (Some 0)
  | [r] => r
  | r :: rest => Seq r (seqs rest)
  end.

Fixpoint alts (r : regex) (rs : list regex) : regex :=
  match rs with
  | [] => r
  | r' :: rest => Alt r (alts r' rest)
  end.

(** A literal word; with [fold], under the flag [(?i)]. *)
Definition str (fold : bool) (w : string) : regex :=
  seqs (map (fun c => if fold then Cls (fun c' => Ascii.eqb (lowerByte c') (lowerByte c)) else Lit c)
            (lit w)).

End Regexp.

(** ** Errors *)

(** The errors the pipeline returns, by the place that raises them. *)
Inductive error : Type :=
| ErrOpenEPUB            (* failed to open EPUB *)
| ErrNCXNotFound         (* NCX file not found in EPUB *)
| ErrOpenNCX             (* failed to open NCX file *)
| ErrParseNCX            (* failed to parse NCX *)
| ErrReadFile            (* opening or reading a content file failed *)
| ErrChapterFileNotFound (* chapter file not found *)
| ErrNoChaptersInNCX     (* no chapters found in NCX *)
| ErrNoChapterEntries    (* no chapter entries found *)
| ErrNoChapterContent    (* failed to extract any chapter content *)
| ErrNoConvert           (* ebook-convert not found *)
| ErrTempDir             (* failed to create temp dir *)
| ErrConvertEPUB         (* ebook-convert to EPUB failed *)
| ErrConvertTxt          (* ebook-convert to txt failed *)
| ErrReadTxt.            (* failed to read text output *)

Inductive result (A : Type) : Type :=
| Ok (a : A)
| Err (e : error).
Arguments Ok {A} a.
Arguments Err {A} e.

(** ** Package models *)

Module Models.

Record Chapter := mkChapter {
  Index : Z;
  Title : gostring;
  Content : gostring;
  HTMLContent : gostring;
  WordCount : Z;
  CharCount : Z
}.

(** The loop of [countWords]. *)
Fixpoint countWordsFrom (inWord : bool) (count : Z) (text : gostring) : Z :=
  match text with
  | [] => count
  | r :: rest =>
      let isSpace := Ascii.eqb r SP || Ascii.eqb r TAB || Ascii.eqb r LF || Ascii.eqb r CR in
      if isSpace then countWordsFrom false count rest
      else if negb inWord then countWordsFrom true (count + 1) rest
      else countWordsFrom inWord count rest
  end.

Definition countWords (text : gostring) : Z :=
  if isEmpty text then 0%Z else countWordsFrom false 0 text.

Definition NewChapter (index : Z) (title content : gostring) : Chapter :=
  {| Index := index;
     Title := title;
     Content := content;
     HTMLContent := [];
     WordCount := countWords content;
     CharCount := Z.of_nat (length content) |}.

(** White space of [countWords]. *)
Definition wordSpace (r : ascii) : bool :=
  Ascii.eqb r SP || Ascii.eqb r TAB || Ascii.eqb r LF || Ascii.eqb r CR.

Definition IsEmpty (c : Chapter) : bool := length (Content c) =? 0.

(** The loop of [Summary] over [i], from [len(text)-1] down while
    [i > maxLen-20]; [i] is written [maxLen - 20 + n] and the loop runs while
    [n > 0].  Reading [text[i]] outside the text panics: [None]. *)
Fixpoint summaryLoop (text : gostring) (maxLen : Z) (n : nat) : option gostring :=
  match n with
  | O => Some (text ++ lit "...")
  | S n' =>
      let i := (maxLen - 20 + Z.of_nat n)%Z in
      if (i <? 0)%Z then None
      else match nth_error text (Z.to_nat i) with
           | None => None
           | Some r =>
               if Ascii.eqb r SP then Some (firstn (Z.to_nat i) text ++ lit "...")
               else summaryLoop text maxLen n'
           end
  end.

(** [Summary]; [None] is a panic, of [c.Content[:maxLen]] for a negative
    [maxLen] or of [text[i]] for a negative [i]. *)
Definition Summary (c : Chapter) (maxLen : Z) : option gostring :=
  if (Z.of_nat (length (Content c)) <=? maxLen)%Z then Some (Content c)
  else if (maxLen <? 0)%Z then None
  else
    let text := firstn (Z.to_nat maxLen) (Content c) in
    summaryLoop text maxLen 19.

End Models.

(** ** Package ncx *)

Module Ncx.

Record DocTitle := mkDocTitle { DocText : gostring }.
Record NavLabel := mkNavLabel { Text : gostring }.
Record Content := mkContent { Src : gostring }.

Inductive NavPoint : Type :=
| mkNavPoint (ID : gostring) (PlayOrder : Z) (Class : gostring)
             (Label : NavLabel) (Content : Content) (Children : list NavPoint).

Definition PlayOrder (np : NavPoint) : Z :=
  match np with mkNavPoint _ o _ _ _ _ => o end.
Definition Label (np : NavPoint) : NavLabel :=
  match np with mkNavPoint _ _ _ l _ _ => l end.
Definition ContentOf (np : NavPoint) : Content :=
  match np with mkNavPoint _ _ _ _ c _ => c end.
Definition Children (np : NavPoint) : list NavPoint :=
  match np with mkNavPoint _ _ _ _ _ cs => cs end.

Record NavMap := mkNavMap { NavPoints : list NavPoint }.
Record NCX := mkNCX { Doc : DocTitle; Map : NavMap }.

Inductive TOCEntry : Type :=
| mkTOCEntry (Title : gostring) (Level : Z) (Href : gostring) (Order : Z)
             (Children : list TOCEntry).

Definition Title (e : TOCEntry) : gostring :=
  match e with mkTOCEntry t _ _ _ _ => t end.
Definition Level (e : TOCEntry) : Z :=
  match e with mkTOCEntry _ l _ _ _ => l end.
Definition Href (e : TOCEntry) : gostring :=
  match e with mkTOCEntry _ _ h _ _ => h end.
Definition Order (e : TOCEntry) : Z :=
  match e with mkTOCEntry _ _ _ o _ => o end.

(** The entry [flattenNavPoint] builds for one navigation point. *)
Definition entryOf (np : NavPoint) (level : Z) : TOCEntry :=
  mkTOCEntry (TrimSpace (Text (Label np))) level (Src (ContentOf np)) (PlayOrder np) [].

Fixpoint flattenNavPoint (np : NavPoint) (level : Z) : list TOCEntry :=
  let entry := entryOf np level in
  let entries := [] ++ [entry] in
  match np with
  | mkNavPoint _ _ _ _ _ children =>
      fold_left (fun entries child => entries ++ flattenNavPoint child (level + 1))
                children entries
  end.

Definition GetTOC (ncx : NCX) : list TOCEntry :=
  fold_left (fun entries np => entries ++ flattenNavPoint np 1) (NavPoints (Map ncx)) [].

(** A member of a zip archive: its name, and its bytes when it can be
    opened and read. *)
Record zipFile := mkZipFile { Name : gostring; Body : option gostring }.

(** What [zip.OpenReader(epubPath)] gives: the members, or no archive. *)
Definition epub := option (list zipFile).

Section Decoder.

(** [xml.NewDecoder(r).Decode(&ncx)] of package encoding/xml. *)
Variable xmlDecode : gostring -> option NCX.

Definition ParseNCX (r : gostring) : result NCX :=
  match xmlDecode r with
  | Some ncx => Ok ncx
  | None => Err ErrParseNCX
  end.

Definition ParseNCXBytes (data : gostring) : result NCX := ParseNCX data.

Definition ExtractNCXFromEPUB (epubPath : epub) : result NCX :=
  match epubPath with
  | None => Err ErrOpenEPUB
  | Some files =>
      match List.find (fun f => HasSuffix (ToLower (Name f)) (lit ".ncx")) files with
      | None => Err ErrNCXNotFound
      | Some ncxFile =>
          match Body ncxFile with
          | None => Err ErrOpenNCX
          | Some rc => ParseNCX rc
          end
      end
  end.

End Decoder.

Definition DQ : ascii := "034"%char.
Definition SQ : ascii := "039"%char.

(** The four attribute forms searched for a fragment, in this order. *)
Definition fragmentPatterns (fragment : gostring) : list gostring :=
  [ lit "id=" ++ DQ :: fragment ++ [DQ];
    lit "id=" ++ SQ :: fragment ++ [SQ];
    lit "name=" ++ DQ :: fragment ++ [DQ];
    lit "name=" ++ SQ :: fragment ++ [SQ] ].

(** The first pattern of the list that occurs in [html], at its first
    occurrence. *)
Fixpoint firstIndex (html : gostring) (patterns : list gostring) : option nat :=
  match patterns with
  | [] => None
  | pattern :: rest =>
      match GoStrings.Index html pattern with
      | Some idx => Some idx
      | None => firstIndex html rest
      end
  end.

Definition extractFragmentContent (html startFragment endFragment : gostring) : gostring :=
  match firstIndex html (fragmentPatterns startFragment) with
  | None => html
  | Some startIdx =>
      let endIdx :=
        if isEmpty endFragment then length html
        else match firstIndex (skipn (startIdx + 1) html) (fragmentPatterns endFragment) with
             | Some idx => startIdx + 1 + idx
             | None => length html
             end in
      slice html startIdx endIdx
  end.

(** One turn of the loop of [removeTag]. *)
Inductive turn : Type :=
| Break
| Next (html : gostring)
| Panic.

(** How a run of the loop ends; [OutOfFuel] is the model's, not Go's. *)
Inductive outcome : Type :=
| Returned (html : gostring)
| Panicked
| OutOfFuel.

Definition closeTag (tag : gostring) : gostring := lit "</" ++ tag ++ lit ">".

Section RemoveTag.

(** The lowering applied to the text before the search for the opening tag,
    [strings.ToLower] in the program.  The offset found in the lowered text
    is used on [html] itself: the slice [html[start:]] panics when that
    offset lies beyond the end of [html]. *)
Variable lower : gostring -> gostring.

Definition removeTagTurn (html tag : gostring) : turn :=
  match GoStrings.Index (lower html) (lit "<" ++ tag) with
  | None => Break
  | Some start =>
      if length html <? start then Panic
      else match GoStrings.Index (skipn start html) (closeTag tag) with
           | None => Break
           | Some end_ =>
               Next (firstn start html ++ skipn (start + end_ + length (closeTag tag)) html)
           end
  end.

Fixpoint removeTagLoop (fuel : nat) (html tag : gostring) : outcome :=
  match fuel with
  | O => OutOfFuel
  | S fuel' =>
      match removeTagTurn html tag with
      | Break => Returned html
      | Panic => Panicked
      | Next html' => removeTagLoop fuel' html' tag
      end
  end.

End RemoveTag.

(** [removeTag]: every turn but the last removes at least the closing tag,
    so [len(html)+1] turns are enough. *)
Definition removeTag (html tag : gostring) : gostring :=
  match removeTagLoop ToLower (S (length html)) html tag with
  | Returned html' => html'
  | _ => html
  end.

Definition blockTags : list gostring :=
  map lit ["p"; "div"; "br"; "h1"; "h2"; "h3"; "h4"; "h5"; "h6"; "li"; "tr"]%string.

Definition blockToNewlines (html tag : gostring) : gostring :=
  let html := ReplaceAll html (lit "<" ++ tag) (LF :: lit "<" ++ tag) in
  ReplaceAll html (lit "</" ++ tag ++ lit ">") [LF].

(** The loop that drops every tag. *)
Fixpoint stripTags (inTag : bool) (html : gostring) : gostring :=
  match html with
  | [] => []
  | r :: rest =>
      if Ascii.eqb r "<"%char then stripTags true rest
      else if Ascii.eqb r ">"%char then stripTags false rest
      else if negb inTag then r :: stripTags inTag rest
      else stripTags inTag rest
  end.

Definition cleanLines (lines : list gostring) : list gostring :=
  fold_left (fun clean line =>
               let line := TrimSpace line in
               if negb (isEmpty line) then clean ++ [line] else clean)
            lines [].

Definition htmlToText (html : gostring) : gostring :=
  let html := removeTag html (lit "script") in
  let html := removeTag html (lit "style") in
  let html := fold_left blockToNewlines blockTags html in
  let text := stripTags false html in
  let lines := GoStrings.Split text LF in
  Join (cleanLines lines) [LF; LF].

(** The head of [GetChapterContentRange]: the file path and the fragment of
    [href], and the end fragment taken from [nextHref]. *)
Definition hrefRange (href nextHref : gostring) : gostring * gostring * gostring :=
  let '(filePath, frag) := SplitN2 href "#"%char in
  let startFragment := match frag with Some f => f | None => [] end in
  let endFragment :=
    if negb (isEmpty nextHref)
    then match SplitN2 nextHref "#"%char with
         | (next0, Some next1) =>
             if streq next0 filePath || isEmpty next0 || HasSuffix filePath next0
             then next1 else []
         | (_, None) => []
         end
    else [] in
  (filePath, startFragment, endFragment).

(** The loop of [GetChapterContentRange] over the members of the archive. *)
Fixpoint readChapterFile (files : list zipFile) (filePath startFragment endFragment : gostring)
    : result gostring :=
  match files with
  | [] => Err ErrChapterFileNotFound
  | f :: rest =>
      if streq (Name f) filePath || HasSuffix (Name f) filePath
      then match Body f with
           | None => Err ErrReadFile
           | Some data =>
               let html := data in
               let html := if negb (isEmpty startFragment)
                           then extractFragmentContent html startFragment endFragment
                           else html in
               Ok (htmlToText html)
           end
      else readChapterFile rest filePath startFragment endFragment
  end.

Definition GetChapterContentRange (epubPath : epub) (href nextHref : gostring) : result gostring :=
  match epubPath with
  | None => Err ErrOpenEPUB
  | Some files =>
      let '(filePath, startFragment, endFragment) := hrefRange href nextHref in
      let filePath := Filepath.Clean filePath in
      readChapterFile files filePath startFragment endFragment
  end.

Definition GetChapterContent (epubPath : epub) (href : gostring) : result gostring :=
  GetChapterContentRange epubPath href [].

(** The [Children] field of a [TOCEntry]. *)
Definition SubEntries (e : TOCEntry) : list TOCEntry :=
  match e with mkTOCEntry _ _ _ _ cs => cs end.

(** The number of navigation points in a tree. *)
Fixpoint countPoints (np : NavPoint) : nat :=
  match np with
  | mkNavPoint _ _ _ _ _ children => S (list_sum (map countPoints children))
  end.

End Ncx.

(** ** Package calibre *)

Module Calibre.

Import Regexp.

Record ChapterOptions := mkChapterOptions {
  ChapterXPath : gostring;
  ChapterMark : gostring;
  KeepHTML : bool
}.

Definition skipPatterns : list gostring :=
  map lit [ "transcriber"; "note"; "copyright"; "dedication"; "epigraph";
            "acknowledgment"; "about the author"; "about the book";
            "the full project gutenberg"; "project gutenberg"; "license";
            "the modern library"; "footnotes"; "endnotes"; "index";
            "bibliography"; "contents"; "table of contents" ]%string.

(** The class of one byte. *)
Definition only (c : ascii) (c' : ascii) : bool := Ascii.eqb c c'.

(** [[IVXLC]+] and [\d+|[IVXLC]+]. *)
Definition roman : regex := plus (oneOf "IVXLC").
Definition number : regex := Alt (plus digit) roman.

(** [^\s*(I{1,3}|IV|V|VI{0,3}|IX|X{0,3}|[0-9]+)\s*\.?\s+\w] *)
Definition reNumberedTitle : regex :=
  seqs [ BeginText; star space;
         Group 1 (alts (Rep (only "I") 1 (Some 3))
                       [ str false "IV"; Lit "V";
                         Seq (Lit "V") (Rep (only "I") 0 (Some 3));
                         str false "IX"; Rep (only "X") 0 (Some 3); plus digit ]);
         star space; opt (only "."); plus space; Cls word ].

(** [(?i)^(chapter|part)\s+] *)
Definition reChapterOrPart : regex :=
  seqs [ BeginText; Group 1 (Alt (str true "chapter") (str true "part")); plus space ].

Definition filterChapterEntries (entries : list Ncx.TOCEntry) : list Ncx.TOCEntry :=
  fold_left
    (fun chapters entry =>
       let titleLower := ToLower (Ncx.Title entry) in
       let skip := existsb (fun pattern => Contains titleLower pattern) skipPatterns in
       if skip then chapters
       else if length (Ncx.Title entry) <? 2 then chapters
       else
         let isChapter :=
           Contains titleLower (lit "chapter")
           || Contains titleLower (lit "part")
           || MatchString reNumberedTitle (Ncx.Title entry)
           || (2 <=? Ncx.Level entry)%Z in
         let isChapter :=
           if MatchString reChapterOrPart (Ncx.Title entry) then true else isChapter in
         let isChapter :=
           if (20 <? length (Ncx.Title entry)) && Contains (Ncx.Title entry) (lit " ")
           then true else isChapter in
         if isChapter then chapters ++ [entry] else chapters)
    entries [].

(** The decision of [filterChapterEntries] on one entry. *)
Definition keepEntry (entry : Ncx.TOCEntry) : bool :=
  let titleLower := ToLower (Ncx.Title entry) in
  let skip := existsb (fun pattern => Contains titleLower pattern) skipPatterns in
  if skip then false
  else if length (Ncx.Title entry) <? 2 then false
  else
    let isChapter :=
      Contains titleLower (lit "chapter")
      || Contains titleLower (lit "part")
      || MatchString reNumberedTitle (Ncx.Title entry)
      || (2 <=? Ncx.Level entry)%Z in
    let isChapter :=
      if MatchString reChapterOrPart (Ncx.Title entry) then true else isChapter in
    let isChapter :=
      if (20 <? length (Ncx.Title entry)) && Contains (Ncx.Title entry) (lit " ")
      then true else isChapter in
    isChapter.

(** [\n\s*\*\s*\*\s*\*\s*\n] *)
Definition reStarSeparator : regex :=
  seqs [ Lit LF; star space; Lit "*"; star space; Lit "*"; star space; Lit "*";
         star space; Lit LF ].

Definition splitByStarSeparator (content : gostring) : list gostring :=
  let parts := Regexp.Split reStarSeparator content in
  let chapters :=
    fold_left (fun chapters part =>
                 let trimmed := TrimSpace part in
                 if 500 <? length trimmed then chapters ++ [trimmed] else chapters)
              parts [] in
  if 3 <=? length chapters then chapters else [content].

(** The heading patterns, most specific first; all under the flag [(?m)]. *)
Definition chapterPatterns : list regex :=
  [ (* ^(Chapter|CHAPTER)\s+(\d+|[IVXLC]+) *)
    seqs [ BeginLine; Group 1 (Alt (str false "Chapter") (str false "CHAPTER"));
           plus space; Group 2 number ];
    (* ^([IVXLC]+)\.\s+[A-Z] *)
    seqs [ BeginLine; Group 1 roman; Lit "."; plus space; Cls isUpper ];
    (* ^(\d+)\.\s+[A-Z] *)
    seqs [ BeginLine; Group 1 (plus digit); Lit "."; plus space; Cls isUpper ];
    (* ^([IVXLC]+)\.\s*$ *)
    seqs [ BeginLine; Group 1 roman; Lit "."; star space; EndLine ];
    (* ^(\d+)\.\s*$ *)
    seqs [ BeginLine; Group 1 (plus digit); Lit "."; star space; EndLine ];
    (* ^Part\s+(\d+|[IVXLC]+) *)
    seqs [ BeginLine; str false "Part"; plus space; Group 1 number ] ].

(** The parts one pattern gives: the text before each match and the text
    from the last match on, each kept when it is long enough. *)
Definition partsOfMatches (content : gostring) (matches : list (nat * nat)) : list gostring :=
  let '(parts, lastEnd) :=
    fold_left
      (fun (st : list gostring * nat) (m : nat * nat) =>
         let '(parts, lastEnd) := st in
         let parts :=
           if lastEnd <? fst m
           then let before := TrimSpace (slice content lastEnd (fst m)) in
                if (100 <? length before) && (0 <? lastEnd)
                then parts ++ [before] else parts
           else parts in
         (parts, fst m))
      matches ([], 0) in
  if lastEnd <? length content
  then let remaining := TrimSpace (skipn lastEnd content) in
       if 100 <? length remaining then parts ++ [remaining] else parts
  else parts.

(** The loop of [splitByChapterPatterns] over the patterns. *)
Fixpoint tryPatterns (content : gostring) (patterns : list regex) : list gostring :=
  match patterns with
  | [] => [content]
  | re :: rest =>
      let matches := FindAllStringIndex re content in
      if 3 <=? length matches
      then let parts := partsOfMatches content matches in
           if 3 <=? length parts then parts else tryPatterns content rest
      else tryPatterns content rest
  end.

Definition splitByChapterPatterns (content : gostring) : list gostring :=
  tryPatterns content chapterPatterns.

Definition titleCase (s : gostring) : gostring :=
  if streq s (ToUpper s) && (10 <? length s)
  then
    let words := Fields (ToLower s) in
    let words :=
      map (fun word =>
             match word with
             | c :: rest => ToUpper [c] ++ rest
             | [] => word
             end) words in
    Join words (lit " ")
  else s.

(** [^[IVXLC]+$] and [^\d+$] *)
Definition reRoman : regex := seqs [ BeginText; roman; EndText ].
Definition reDigits : regex := seqs [ BeginText; plus digit; EndText ].

Definition formatChapterTitle (title : gostring) : gostring :=
  let title := TrimSpace title in
  let title := TrimSuffix title (lit ".") in
  if MatchString reRoman title then lit "Chapter " ++ title
  else if MatchString reDigits title then lit "Chapter " ++ title
  else title.

(** [^(Chapter|CHAPTER)\s+(\d+|[IVXLC]+)] *)
Definition reChapterHeading : regex :=
  seqs [ BeginText; Group 1 (Alt (str false "Chapter") (str false "CHAPTER"));
         plus space; Group 2 number ].
(** [^([IVXLC]+)\.\s+(.+)$] *)
Definition reRomanTitle : regex :=
  seqs [ BeginText; Group 1 roman; Lit "."; plus space; Group 2 (plus dot); EndText ].
(** [^[IVXLC]+\.?$] and [^\d+\.?$] *)
Definition reRomanDot : regex := seqs [ BeginText; roman; opt (only "."); EndText ].
Definition reDigitsDot : regex := seqs [ BeginText; plus digit; opt (only "."); EndText ].

(** The first loop of [detectChapterTitle]: the first five lines that are
    not empty once trimmed. *)
Fixpoint collectLines (lines : list gostring) (nonEmptyLines : list gostring) : list gostring :=
  match lines with
  | [] => nonEmptyLines
  | line :: rest =>
      let line := TrimSpace line in
      if isEmpty line then collectLines rest nonEmptyLines
      else
        let nonEmptyLines := nonEmptyLines ++ [line] in
        if 5 <=? length nonEmptyLines then nonEmptyLines
        else collectLines rest nonEmptyLines
  end.

(** [detectChapterTitle] from its first line on. *)
Definition titleOfFirstLine (firstLine : gostring) (defaultNum : Z) : gostring :=
  if MatchString reChapterHeading firstLine && (length firstLine <? 80)
  then firstLine
  else
    let matches := FindStringSubmatch reRomanTitle 2 firstLine in
    if MatchString reRomanTitle firstLine && (3 <=? length matches)
    then lit "Chapter " ++ nth 1 matches [] ++ lit ": " ++ titleCase (nth 2 matches [])
    else if MatchString reRomanDot firstLine then formatChapterTitle firstLine
    else if MatchString reDigitsDot firstLine then formatChapterTitle firstLine
    else if (length firstLine <? 60) && (3 <? length firstLine) then titleCase firstLine
    else lit "Chapter " ++ itoa defaultNum.

Definition detectChapterTitle (content : gostring) (defaultNum : Z) : gostring :=
  let lines := GoStrings.Split content LF in
  let nonEmptyLines := collectLines lines [] in
  match nonEmptyLines with
  | [] => lit "Chapter " ++ itoa defaultNum
  | firstLine :: others =>
      match others with
      | titleLine :: _ =>
          if MatchString reRoman firstLine
          then
            let romanNum := firstLine in
            if (5 <? length titleLine) && (length titleLine <? 100)
            then lit "Chapter " ++ romanNum ++ lit ": " ++ titleCase titleLine
            else lit "Chapter " ++ romanNum
          else titleOfFirstLine firstLine defaultNum
      | [] => titleOfFirstLine firstLine defaultNum
      end
  end.

(** The loop of [splitIntoChapters] over the parts, [i] the position of the
    part in the list. *)
Fixpoint chaptersOfParts (i : Z) (parts : list gostring) (chapters : list Models.Chapter)
    : list Models.Chapter :=
  match parts with
  | [] => chapters
  | part :: rest =>
      let part := TrimSpace part in
      if isEmpty part then chaptersOfParts (i + 1) rest chapters
      else
        let title := detectChapterTitle part (i + 1) in
        chaptersOfParts (i + 1) rest (chapters ++ [Models.NewChapter i title part])
  end.

(** The head of [splitIntoChapters]: the parts that reach its loop. *)
Definition partsOf (content : gostring) : list gostring :=
  let parts := GoStrings.Split content FF in
  let parts := if length parts <=? 1 then splitByStarSeparator content else parts in
  let parts := if length parts <=? 1 then splitByChapterPatterns content else parts in
  parts.

Definition splitIntoChapters (content : gostring) : list Models.Chapter :=
  chaptersOfParts 0 (partsOf content) [].

(** The loop of [extractChaptersFromOriginalNCX] over the chapter entries,
    [i] the position of the entry in the list. *)
Fixpoint originalNCXLoop (epubPath : Ncx.epub) (i : Z) (chapterEntries : list Ncx.TOCEntry)
    (chapters : list Models.Chapter) : list Models.Chapter :=
  match chapterEntries with
  | [] => chapters
  | entry :: rest =>
      let nextHref := match rest with next :: _ => Ncx.Href next | [] => [] end in
      match Ncx.GetChapterContentRange epubPath (Ncx.Href entry) nextHref with
      | Err _ => originalNCXLoop epubPath (i + 1) rest chapters
      | Ok content =>
          if length (Fields content) <? 50
          then originalNCXLoop epubPath (i + 1) rest chapters
          else
            let title := if isEmpty (Ncx.Title entry)
                         then lit "Chapter " ++ itoa (i + 1) else Ncx.Title entry in
            originalNCXLoop epubPath (i + 1) rest
              (chapters ++ [Models.NewChapter (Z.of_nat (length chapters)) title content])
      end
  end.

(** The loop of [extractChaptersWithCalibreNCX] over the entries. *)
Fixpoint calibreNCXLoop (epubPath : Ncx.epub) (i : Z) (tocEntries : list Ncx.TOCEntry)
    (chapters : list Models.Chapter) : list Models.Chapter :=
  match tocEntries with
  | [] => chapters
  | entry :: rest =>
      match Ncx.GetChapterContent epubPath (Ncx.Href entry) with
      | Err _ => calibreNCXLoop epubPath (i + 1) rest chapters
      | Ok content =>
          let title := if isEmpty (Ncx.Title entry)
                       then lit "Chapter " ++ itoa (i + 1) else Ncx.Title entry in
          calibreNCXLoop epubPath (i + 1) rest (chapters ++ [Models.NewChapter i title content])
      end
  end.

(** What one call of [ExtractChaptersWithOptions] meets outside the program. *)
Record world := mkWorld {
  ebookPath : gostring;            (* the name of the book *)
  ebookConvert : gostring;         (* the tool's path, empty when not found *)
  tempDir : bool;                  (* whether os.MkdirTemp succeeds *)
  original : Ncx.epub;             (* the book opened as a zip archive *)
  converted : option Ncx.epub;     (* the EPUB ebook-convert writes, if it runs *)
  textOutput : option (option gostring)  (* the text it writes, if it runs and the file reads *)
}.

Section Decoder.

Variable xmlDecode : gostring -> option Ncx.NCX.

Definition extractChaptersFromOriginalNCX (epubPath : Ncx.epub) : result (list Models.Chapter) :=
  match Ncx.ExtractNCXFromEPUB xmlDecode epubPath with
  | Err e => Err e
  | Ok ncxDoc =>
      let tocEntries := Ncx.GetTOC ncxDoc in
      if length tocEntries =? 0 then Err ErrNoChaptersInNCX
      else
        let chapterEntries := filterChapterEntries tocEntries in
        if length chapterEntries =? 0 then Err ErrNoChapterEntries
        else
          let chapters := originalNCXLoop epubPath 0 chapterEntries [] in
          if length chapters =? 0 then Err ErrNoChapterContent else Ok chapters
  end.

Definition extractChaptersWithCalibreNCX (w : world) : result (list Models.Chapter) :=
  match converted w with
  | None => Err ErrConvertEPUB
  | Some epubPath =>
      match Ncx.ExtractNCXFromEPUB xmlDecode epubPath with
      | Err e => Err e
      | Ok ncxDoc =>
          let tocEntries := Ncx.GetTOC ncxDoc in
          if length tocEntries =? 0 then Err ErrNoChaptersInNCX
          else
            let chapters := calibreNCXLoop epubPath 0 tocEntries [] in
            if length chapters =? 0 then Err ErrNoChapterContent else Ok chapters
      end
  end.

Definition extractChaptersWithNCX (w : world) : result (list Models.Chapter) :=
  let viaOriginal :=
    if HasSuffix (ToLower (ebookPath w)) (lit ".epub")
    then match extractChaptersFromOriginalNCX (original w) with
         | Ok chapters => if 3 <=? length chapters then Some chapters else None
         | Err _ => None
         end
    else None in
  match viaOriginal with
  | Some chapters => Ok chapters
  | None => extractChaptersWithCalibreNCX w
  end.

Definition extractChaptersWithText (w : world) : result (list Models.Chapter) :=
  match textOutput w with
  | None => Err ErrConvertTxt
  | Some None => Err ErrReadTxt
  | Some (Some txtContent) => Ok (splitIntoChapters txtContent)
  end.

Definition ExtractChaptersWithOptions (w : world) : result (list Models.Chapter) :=
  if isEmpty (ebookConvert w) then Err ErrNoConvert
  else if negb (tempDir w) then Err ErrTempDir
  else
    match extractChaptersWithNCX w with
    | Ok chapters =>
        if 0 <? length chapters then Ok chapters else extractChaptersWithText w
    | Err _ => extractChaptersWithText w
    end.

End Decoder.

End Calibre.

(** ** The specification's words *)

Module Spec.


(** A line of a normalised text: not empty, trimmed, without newline. *)
Definition goodLine (l : gostring) : Prop :=
  l <> [] /\ TrimSpace l = l /\ ~ In LF l.

(** Dense indices: the chapter at position [i] has index [i]. *)
Definition dense (chapters : list Models.Chapter) : Prop :=
  map Models.Index chapters = map Z.of_nat (seq 0 (length chapters)).


(** White-space normalisation of a text: split on newlines, trim each line,
    drop the empty lines, join the others with a blank line between them. *)
Definition normalizeWhitespace (text : gostring) : gostring :=
  Join (filter (fun line => negb (isEmpty line))
               (map TrimSpace (GoStrings.Split text LF)))
       [LF; LF].


(** Two references are same-file when their file paths are equal after
    normalisation, or one is a suffix of the other. *)
Definition sameFile (a b : gostring) : bool :=
  streq (Filepath.Clean a) (Filepath.Clean b) || HasSuffix a b || HasSuffix b a.

(** The first lines of a chapter's text: up to five lines that are not
    empty once trimmed. *)
Definition firstLines (content : gostring) : list gostring :=
  firstn 5 (filter (fun line => negb (isEmpty line))
                   (map TrimSpace (GoStrings.Split content LF))).

(** A bare Roman numeral: one or more of the letters I, V, X, L, C. *)
Definition bareRoman (line : gostring) : bool :=
  negb (isEmpty line) && forallb (Regexp.oneOf "IVXLC") line.

End Spec.
Import Spec.

(** ** Invariants of the chapters *)

Module Invariants.


(** The title a navigation entry gives the chapter read at position [i]. *)
Definition titleOf (entry : Ncx.TOCEntry) (i : Z) : gostring :=
  if isEmpty (Ncx.Title entry) then lit "Chapter " ++ itoa (i + 1) else Ncx.Title entry.

(** A call with [original] as the archive of the book, all else as in [w]. *)
Definition withOriginal (w : Calibre.world) (o : Ncx.epub) : Calibre.world :=
  Calibre.mkWorld (Calibre.ebookPath w) (Calibre.ebookConvert w) (Calibre.tempDir w)
                  o (Calibre.converted w) (Calibre.textOutput w).

End Invariants.
Import Invariants.

(** ** Sample inputs *)

Module Sample.

(** An archive with one content file of two anchored paragraphs. *)
Definition twoAnchors : Ncx.epub :=
  Some [ Ncx.mkZipFile (lit "OEBPS/ch1.html")
                       (Some (lit "<p id='a'>First.</p><p id='b'>Second.</p>")) ].

(** A chapter file of sixty words, and one of three. *)
Definition longText : gostring := lit "<p>" ++ concat (repeat (lit "word ") 60) ++ lit "</p>".
Definition shortText : gostring := lit "<p>Only three words</p>".

Definition navPoint (order : Z) (label src : string) : Ncx.NavPoint :=
  Ncx.mkNavPoint [] order [] (Ncx.mkNavLabel (lit label)) (Ncx.mkContent (lit src)) [].

(** A navigation document of four chapters; the third points to a file that
    the archive does not hold. *)
Definition fourChapters : Ncx.NCX :=
  Ncx.mkNCX (Ncx.mkDocTitle (lit "A Book"))
    (Ncx.mkNavMap [ navPoint 1 "Chapter 1" "ch1.html";
                    navPoint 2 "Chapter 2" "ch2.html";
                    navPoint 3 "Chapter 3" "ch3.html";
                    navPoint 4 "Chapter 4" "ch4.html" ]).

Definition book : Ncx.epub :=
  Some [ Ncx.mkZipFile (lit "toc.ncx") (Some (lit "<ncx/>"));
         Ncx.mkZipFile (lit "OEBPS/ch1.html") (Some longText);
         Ncx.mkZipFile (lit "OEBPS/ch2.html") (Some shortText);
         Ncx.mkZipFile (lit "OEBPS/ch4.html") (Some longText) ].

(** A decoder that reads every navigation file as [fourChapters]. *)
Definition decode (_ : gostring) : option Ncx.NCX := Some fourChapters.

(** A call on a book that is not an EPUB, which ebook-convert turns into
    [book]. *)
Definition world : Calibre.world :=
  Calibre.mkWorld (lit "book.mobi") (lit "/usr/bin/ebook-convert") true None (Some book) None.

(** The indices of the chapters a call returns. *)
Definition indices (r : result (list Models.Chapter)) : option (list Z) :=
  match r with
  | Ok chapters => Some (map Models.Index chapters)
  | Err _ => None
  end.


(** An EPUB whose four chapter files are all there, and a call on it that
    can convert nothing. *)
Definition fullBook : Ncx.epub :=
  Some [ Ncx.mkZipFile (lit "toc.ncx") (Some (lit "<ncx/>"));
         Ncx.mkZipFile (lit "OEBPS/ch1.html") (Some longText);
         Ncx.mkZipFile (lit "OEBPS/ch2.html") (Some longText);
         Ncx.mkZipFile (lit "OEBPS/ch3.html") (Some longText);
         Ncx.mkZipFile (lit "OEBPS/ch4.html") (Some longText) ].

Definition epubWorld : Calibre.world :=
  Calibre.mkWorld (lit "Book.EPUB") (lit "/usr/bin/ebook-convert") true fullBook None None.

End Sample.

(** * Properties *)

(** ** Strings *)

Section StringFacts.

Lemma streq_eq (a b : gostring) : streq a b = true <-> a = b.
Proof.
  revert b; induction a as [|x a IH]; intros [|y b]; simpl; split; intro H;
    try reflexivity; try discriminate.
  - apply andb_true_iff in H as [Hx Hr].
    apply Ascii.eqb_eq in Hx. apply IH in Hr. congruence.
  - injection H as -> ->. rewrite Ascii.eqb_refl. simpl. now apply IH.
Qed.

Lemma isEmpty_true (s : gostring) : isEmpty s = true <-> s = [].
Proof. destruct s; simpl; split; congruence. Qed.

Lemma isEmpty_false (s : gostring) : isEmpty s = false <-> s <> [].
Proof. destruct s; simpl; split; congruence. Qed.

Lemma HasPrefix_refl (s : gostring) : HasPrefix s s = true.
Proof. induction s; simpl; [reflexivity|]. now rewrite Ascii.eqb_refl. Qed.

Lemma HasPrefix_nil (s : gostring) : HasPrefix s [] = true.
Proof. now destruct s. Qed.

Lemma HasPrefix_app (s p : gostring) :
  HasPrefix s p = true <-> exists r, s = p ++ r.
Proof.
  revert s; induction p as [|a p IH]; intros s; simpl.
  - split; [exists s; reflexivity | intros _; apply HasPrefix_nil].
  - destruct s as [|b s]; split.
    + discriminate.
    + intros [r Hr]. discriminate.
    + simpl. intro H. apply andb_true_iff in H as [Hab Hp].
      apply Ascii.eqb_eq in Hab. apply IH in Hp as [r ->]. subst. now exists r.
    + intros [r Hr]. injection Hr as -> ->. simpl. rewrite Ascii.eqb_refl. simpl.
      apply IH. now exists r.
Qed.

Lemma HasSuffix_refl (s : gostring) : HasSuffix s s = true.
Proof. apply HasPrefix_refl. Qed.

Lemma HasSuffix_nil (s : gostring) : HasSuffix s [] = true.
Proof. apply HasPrefix_nil. Qed.

Lemma HasSuffix_app (s x : gostring) :
  HasSuffix s x = true <-> exists r, s = r ++ x.
Proof.
  unfold HasSuffix. rewrite HasPrefix_app. split; intros [r Hr].
  - exists (rev r). rewrite <- (rev_involutive s), Hr, rev_app_distr.
    now rewrite rev_involutive.
  - exists (rev r). now rewrite Hr, rev_app_distr.
Qed.

Lemma Index_eq (s sub : gostring) :
  Index s sub = if HasPrefix s sub then Some 0
                else match s with
                     | [] => None
                     | _ :: s' => option_map S (Index s' sub)
                     end.
Proof. destruct s; reflexivity. Qed.

(** An occurrence found by [Index] lies inside the string, and the pattern
    stands there. *)
Lemma Index_bound (s sub : gostring) (i : nat) :
  Index s sub = Some i -> i + length sub <= length s.
Proof.
  revert i; induction s as [|c s IH]; intros i; rewrite Index_eq;
    destruct (HasPrefix _ sub) eqn:E; try discriminate.
  - intro H; injection H as <-. apply HasPrefix_app in E as [r Hr].
    apply (f_equal (@length _)) in Hr. rewrite length_app in Hr. simpl in *. lia.
  - intro H; injection H as <-. apply HasPrefix_app in E as [r Hr].
    apply (f_equal (@length _)) in Hr. rewrite length_app in Hr. simpl in *. lia.
  - destruct (Index s sub) as [j|]; [|discriminate].
    simpl. intro H; injection H as <-. specialize (IH j eq_refl). lia.
Qed.

Lemma Index_sound (s sub : gostring) (i : nat) :
  Index s sub = Some i -> HasPrefix (skipn i s) sub = true.
Proof.
  revert i; induction s as [|c s IH]; intros i; rewrite Index_eq;
    destruct (HasPrefix _ sub) eqn:E; try discriminate.
  - intro H; injection H as <-. exact E.
  - intro H; injection H as <-. exact E.
  - destruct (Index s sub) as [j|]; [|discriminate].
    simpl. intro H; injection H as <-. now apply IH.
Qed.


Lemma slice_decompose (s : gostring) (i j : nat) :
  i <= j -> j <= length s -> s = firstn i s ++ slice s i j ++ skipn j s.
Proof.
  intros Hij Hj. unfold slice.
  rewrite <- (firstn_skipn i s) at 1. f_equal.
  rewrite <- (firstn_skipn (j - i) (skipn i s)) at 1. f_equal.
  rewrite skipn_skipn. f_equal. lia.
Qed.

Lemma slice_length (s : gostring) (i j : nat) :
  i <= j -> j <= length s -> length (slice s i j) = j - i.
Proof.
  intros Hij Hj. unfold slice. rewrite length_firstn, length_skipn. lia.
Qed.

(** [TrimLeft] removes a prefix of white space and leaves a string that
    does not start with white space. *)
Lemma TrimLeft_split (s : gostring) :
  exists p, s = p ++ TrimLeft s /\ forallb isSpace p = true.
Proof.
  induction s as [|c s [p [Hs Hp]]]; simpl.
  - now exists [].
  - destruct (isSpace c) eqn:E.
    + exists (c :: p). simpl. rewrite E, Hp. split; [now f_equal|reflexivity].
    + now exists [].
Qed.

Lemma TrimLeft_fixed (s : gostring) :
  TrimLeft s = s <-> match s with [] => True | c :: _ => isSpace c = false end.
Proof.
  destruct s as [|c s]; simpl; [tauto|].
  destruct (isSpace c) eqn:E; split; try congruence.
  intro H. exfalso.
  destruct (TrimLeft_split s) as [p [Hs _]].
  apply (f_equal (@length _)) in Hs. rewrite length_app, H in Hs. simpl in Hs. lia.
Qed.

Lemma TrimLeft_idem (s : gostring) : TrimLeft (TrimLeft s) = TrimLeft s.
Proof.
  induction s as [|c s IH]; simpl; [reflexivity|].
  destruct (isSpace c) eqn:E; [exact IH|]. simpl. now rewrite E.
Qed.


Lemma TrimRight_split (s : gostring) :
  exists q, s = TrimRight s ++ q /\ forallb isSpace q = true.
Proof.
  unfold TrimRight. destruct (TrimLeft_split (rev s)) as [p [Hs Hp]].
  exists (rev p). split.
  - rewrite <- (rev_involutive s) at 1. rewrite Hs at 1. now rewrite rev_app_distr.
  - rewrite forallb_forall in *. intros c Hc. apply Hp. now apply in_rev.
Qed.

Lemma TrimRight_idem (s : gostring) : TrimRight (TrimRight s) = TrimRight s.
Proof. unfold TrimRight. now rewrite rev_involutive, TrimLeft_idem. Qed.

(** [TrimSpace s] is what is left of [s] between a prefix and a suffix of
    white space. *)
Lemma TrimSpace_split (s : gostring) :
  exists p q, s = p ++ TrimSpace s ++ q
              /\ forallb isSpace p = true /\ forallb isSpace q = true.
Proof.
  destruct (TrimLeft_split s) as [p [Hs Hp]].
  destruct (TrimRight_split (TrimLeft s)) as [q [Ht Hq]].
  exists p, q. unfold TrimSpace. split; [|tauto].
  rewrite Hs at 1. now rewrite <- Ht.
Qed.

Lemma TrimSpace_In (s : gostring) (c : ascii) : In c (TrimSpace s) -> In c s.
Proof.
  destruct (TrimSpace_split s) as [p [q [Hs _]]]. intro H.
  rewrite Hs. apply in_or_app. right. apply in_or_app. now left.
Qed.

Lemma TrimSpace_length (s : gostring) : length (TrimSpace s) <= length s.
Proof.
  destruct (TrimSpace_split s) as [p [q [Hs _]]].
  apply (f_equal (@length _)) in Hs. rewrite !length_app in Hs. lia.
Qed.

Lemma TrimSpace_idem (s : gostring) : TrimSpace (TrimSpace s) = TrimSpace s.
Proof.
  unfold TrimSpace.
  assert (H : TrimLeft (TrimRight (TrimLeft s)) = TrimRight (TrimLeft s)).
  { apply TrimLeft_fixed.
    destruct (TrimRight_split (TrimLeft s)) as [q [Ht _]].
    pose proof (proj1 (TrimLeft_fixed (TrimLeft s)) (TrimLeft_idem s)) as Hh.
    destruct (TrimRight (TrimLeft s)) as [|c r]; [exact I|].
    rewrite Ht in Hh. exact Hh. }
  rewrite H. apply TrimRight_idem.
Qed.

Lemma forallb_isSpace_rev (s : gostring) :
  forallb isSpace (rev s) = forallb isSpace s.
Proof.
  destruct (forallb isSpace s) eqn:E.
  - rewrite forallb_forall in *. intros c Hc. apply E. now apply in_rev.
  - destruct (forallb isSpace (rev s)) eqn:E'; [|reflexivity].
    rewrite <- E. symmetry. rewrite forallb_forall in *.
    intros c Hc. apply E'. now apply in_rev in Hc.
Qed.


End StringFacts.


(** ** Navigation: flattening *)

Section Flatten.

Import Ncx.

Lemma NavPoint_induction (P : NavPoint -> Prop) :
  (forall id o c l ct children,
      Forall P children -> P (mkNavPoint id o c l ct children)) ->
  forall np, P np.
Proof.
  intros H. fix IH 1. intros [id o c l ct children]. apply H.
  induction children as [|child rest IHrest]; constructor.
  - apply IH.
  - exact IHrest.
Qed.

(** A loop that appends [f x] for each [x] in turn builds the concatenation. *)
Lemma fold_left_append {A B : Type} (f : A -> list B) (l : list A) (acc : list B) :
  fold_left (fun entries x => entries ++ f x) l acc = acc ++ flat_map f l.
Proof.
  revert acc; induction l as [|x l IH]; intros acc; simpl.
  - now rewrite app_nil_r.
  - now rewrite IH, app_assoc.
Qed.

Lemma flattenNavPoint_eq (np : NavPoint) (level : Z) :
  flattenNavPoint np level
  = entryOf np level
    :: flat_map (fun child => flattenNavPoint child (level + 1)) (Children np).
Proof.
  destruct np as [id o c l ct children]. cbn [flattenNavPoint Children].
  now rewrite fold_left_append.
Qed.

Lemma GetTOC_eq (ncx : NCX) :
  GetTOC ncx = flat_map (fun np => flattenNavPoint np 1) (NavPoints (Map ncx)).
Proof. unfold GetTOC. now rewrite fold_left_append. Qed.





End Flatten.

(** ** Content locator *)

Section Locator.

Import Ncx.

Lemma firstIndex_In (html : gostring) (patterns : list gostring) (idx : nat) :
  firstIndex html patterns = Some idx ->
  exists pattern, In pattern patterns /\ GoStrings.Index html pattern = Some idx.
Proof.
  induction patterns as [|p rest IH]; simpl; [discriminate|].
  destruct (GoStrings.Index html p) as [i|] eqn:E.
  - intro H; injection H as <-. exists p. split; [now left|exact E].
  - intro H. destruct (IH H) as [q [Hq Hi]]. exists q. split; [now right|exact Hi].
Qed.

Lemma fragmentPatterns_nonempty (fragment pattern : gostring) :
  In pattern (fragmentPatterns fragment) -> 1 <= length pattern.
Proof.
  unfold fragmentPatterns. simpl.
  intros [<-|[<-|[<-|[<-|[]]]]]; simpl; lia.
Qed.

(** C6. When the start fragment's attribute is found at offset [startIdx]
    and the end fragment's attribute is found at [idx] bytes after
    [startIdx + 1], the content locator returns exactly the bytes of [html]
    from [startIdx] up to, and without, the offset [startIdx + 1 + idx] of
    the end attribute: the slice starts with the matched start attribute, it
    is not empty, and what follows it in [html] starts with the matched end
    attribute. *)
Theorem extractFragmentContent_bounds
    (html startFragment endFragment : gostring) (startIdx idx : nat) :
  firstIndex html (fragmentPatterns startFragment) = Some startIdx ->
  endFragment <> [] ->
  firstIndex (skipn (startIdx + 1) html) (fragmentPatterns endFragment) = Some idx ->
  extractFragmentContent html startFragment endFragment
  = slice html startIdx (startIdx + 1 + idx)
  /\ startIdx < startIdx + 1 + idx <= length html
  /\ html = firstn startIdx html
            ++ extractFragmentContent html startFragment endFragment
            ++ skipn (startIdx + 1 + idx) html
  /\ length (extractFragmentContent html startFragment endFragment) = 1 + idx
  /\ (exists pattern, In pattern (fragmentPatterns startFragment)
                      /\ HasPrefix (skipn startIdx html) pattern = true)
  /\ (exists pattern, In pattern (fragmentPatterns endFragment)
                      /\ HasPrefix (skipn (startIdx + 1 + idx) html) pattern = true).
Proof.
  intros Hs He Hn.
  assert (Hres : extractFragmentContent html startFragment endFragment
                 = slice html startIdx (startIdx + 1 + idx)).
  { unfold extractFragmentContent. rewrite Hs.
    destruct endFragment; [congruence|]. cbn [isEmpty]. now rewrite Hn. }
  destruct (firstIndex_In _ _ _ Hs) as [ps [Hps His]].
  destruct (firstIndex_In _ _ _ Hn) as [pe [Hpe Hie]].
  pose proof (Index_bound _ _ _ Hie) as Hb.
  pose proof (fragmentPatterns_nonempty _ _ Hpe) as Hl.
  rewrite length_skipn in Hb.
  assert (Hin : startIdx + 1 + idx <= length html) by lia.
  rewrite Hres. repeat split.
  - lia.
  - exact Hin.
  - apply slice_decompose; lia.
  - rewrite slice_length; lia.
  - exists ps. split; [exact Hps|]. now apply Index_sound.
  - exists pe. split; [exact Hpe|].
    replace (startIdx + 1 + idx) with (idx + (startIdx + 1)) by lia.
    rewrite <- skipn_skipn. now apply Index_sound.
Qed.

Lemma extractFragmentContent_bounds_witness :
  extractFragmentContent (lit "<p id='a'>A</p><p name='b'>B</p>") (lit "a") (lit "b")
  = slice (lit "<p id='a'>A</p><p name='b'>B</p>") 3 18.
Proof.
  apply (extractFragmentContent_bounds
           (lit "<p id='a'>A</p><p name='b'>B</p>") (lit "a") (lit "b") 3 14).
  - reflexivity.
  - discriminate.
  - reflexivity.
Defined.

End Locator.

(** ** Removal of script and style regions *)

Section RemoveTagFacts.

Import Ncx.

Variable lower : gostring -> gostring.






End RemoveTagFacts.

Section RemoveTagASCII.

Import Ncx.








End RemoveTagASCII.

(** ** Markup-to-text projection *)

Section Projector.

Import Ncx.








(** What [stripTags] writes holds neither [<] nor [>]. *)
Lemma stripTags_In (html : gostring) (inTag : bool) (c : ascii) :
  In c (stripTags inTag html) -> In c html /\ c <> LT /\ c <> GT.
Proof.
  revert inTag; induction html as [|r rest IH]; intros inTag; [contradiction|].
  cbn [stripTags].
  destruct (Ascii.eqb_spec r "<"%char) as [->|Hl].
  { intro H. apply IH in H. simpl; tauto. }
  destruct (Ascii.eqb_spec r ">"%char) as [->|Hg].
  { intro H. apply IH in H. simpl; tauto. }
  destruct inTag; cbn [negb].
  - intro H. apply IH in H. simpl; tauto.
  - intros [<-|H]; [simpl; tauto|]. apply IH in H. simpl; tauto.
Qed.

Lemma cleanLines_filter (lines : list gostring) :
  cleanLines lines
  = filter (fun line => negb (isEmpty line)) (map TrimSpace lines).
Proof.
  unfold cleanLines.
  enough (H : forall acc,
             fold_left (fun clean line =>
                          let line := TrimSpace line in
                          if negb (isEmpty line) then clean ++ [line] else clean)
                       lines acc
             = acc ++ filter (fun line => negb (isEmpty line)) (map TrimSpace lines))
    by apply (H []).
  induction lines as [|l lines IH]; intros acc; cbn [fold_left map filter].
  - now rewrite app_nil_r.
  - rewrite IH. destruct (negb (isEmpty (TrimSpace l))); [|reflexivity].
    now rewrite <- app_assoc.
Qed.



(** The parts of a split hold no separator, and only bytes of the input. *)
Lemma splitAcc_parts (sep : ascii) (s cur : gostring) :
  ~ In sep cur ->
  Forall (fun part => ~ In sep part /\ forall c, In c part -> In c cur \/ In c s)
         (splitAcc sep cur s).
Proof.
  revert cur; induction s as [|c s IH]; intros cur H; cbn [splitAcc].
  - constructor; [|constructor]. split.
    + now rewrite <- in_rev.
    + intros d Hd. left. now apply in_rev.
  - destruct (Ascii.eqb_spec c sep) as [->|Hc].
    + constructor.
      * split; [now rewrite <- in_rev|]. intros d Hd. left. now apply in_rev.
      * eapply Forall_impl; [|apply (IH [])]; [|intros []].
        intros part [Hp Hin]. split; [exact Hp|].
        intros d Hd. destruct (Hin d Hd) as [[]|Hs]. right. now right.
    + eapply Forall_impl; [|apply (IH (c :: cur))].
      * intros part [Hp Hin]. split; [exact Hp|].
        intros d Hd. destruct (Hin d Hd) as [[<-|Hcur]|Hs];
          [right; now left | now left | right; now right].
      * intros [Heq|Hin]; [now apply Hc|now apply H].
Qed.

Lemma Join_In (elems : list gostring) (sep : gostring) (c : ascii) :
  In c (Join elems sep) -> In c sep \/ exists e, In e elems /\ In c e.
Proof.
  induction elems as [|e rest IH]; [contradiction|].
  destruct rest as [|e' rest].
  - cbn [Join]. intro H. right. exists e. split; [now left|exact H].
  - change (Join (e :: e' :: rest) sep) with (e ++ sep ++ Join (e' :: rest) sep).
    intro H. apply in_app_or in H as [H|H].
    + right. exists e. split; [now left|exact H].
    + apply in_app_or in H as [H|H]; [now left|].
      destruct (IH H) as [Hs|[x [Hx Hc]]]; [now left|].
      right. exists x. split; [now right|exact Hc].
Qed.

Lemma normal_lines_good (text : gostring) :
  Forall goodLine
         (filter (fun line => negb (isEmpty line))
                 (map TrimSpace (GoStrings.Split text LF))).
Proof.
  apply Forall_forall. intros l Hl.
  apply filter_In in Hl as [Hin Hne].
  apply in_map_iff in Hin as [part [<- Hpart]].
  pose proof (splitAcc_parts LF text [] (fun H => H)) as Hparts.
  rewrite Forall_forall in Hparts. destruct (Hparts part Hpart) as [Hsep _].
  repeat split.
  - apply negb_true_iff in Hne. now apply isEmpty_false.
  - apply TrimSpace_idem.
  - intro H. apply Hsep. now apply TrimSpace_In.
Qed.



Lemma normalizeWhitespace_In (text : gostring) (c : ascii) :
  In c (Spec.normalizeWhitespace text) -> c = LF \/ In c text.
Proof.
  intro H. apply Join_In in H as [H|[l [Hl Hc]]].
  - left. simpl in H. intuition congruence.
  - right. apply filter_In in Hl as [Hl _].
    apply in_map_iff in Hl as [part [<- Hpart]].
    apply TrimSpace_In in Hc.
    pose proof (splitAcc_parts LF text [] (fun H => H)) as Hparts.
    rewrite Forall_forall in Hparts.
    destruct (proj2 (Hparts part Hpart) c Hc) as [[]|Hin]. exact Hin.
Qed.


(** The output of [htmlToText] holds neither [<] nor [>]. *)
Lemma htmlToText_stripped (html : gostring) :
  exists text, htmlToText html = Spec.normalizeWhitespace (stripTags false text).
Proof.
  unfold htmlToText. rewrite cleanLines_filter.
  now exists (fold_left blockToNewlines blockTags
                (removeTag (removeTag html (lit "script")) (lit "style"))).
Qed.

Lemma htmlToText_no_delimiters (html : gostring) :
  ~ In LT (htmlToText html) /\ ~ In GT (htmlToText html).
Proof.
  destruct (htmlToText_stripped html) as [text ->].
  split; intro H; apply (normalizeWhitespace_In (stripTags false text)) in H;
    destruct H as [H|H]; try discriminate H;
    apply (stripTags_In text false) in H; destruct H as [_ [Hl Hg]]; congruence.
Qed.





End Projector.

(** ** Content locator: the next reference *)

Section SameFile.

Import Ncx.

Lemma hrefRange_eq (href nextHref : gostring) :
  hrefRange href nextHref
  = ( fst (SplitN2 href "#"%char),
      match snd (SplitN2 href "#"%char) with Some f => f | None => [] end,
      match SplitN2 nextHref "#"%char with
      | (next0, Some next1) =>
          if HasSuffix (fst (SplitN2 href "#"%char)) next0 then next1 else []
      | (_, None) => []
      end ).
Proof.
  unfold hrefRange. destruct (SplitN2 href "#"%char) as [filePath frag].
  cbn [fst snd]. f_equal.
  destruct nextHref as [|c rest]; [reflexivity|]. cbn [isEmpty negb].
  destruct (SplitN2 (c :: rest) "#"%char) as [next0 [next1|]]; [|reflexivity].
  destruct (streq next0 filePath) eqn:E.
  - apply streq_eq in E. subst. now rewrite HasSuffix_refl.
  - destruct next0; cbn [isEmpty orb].
    + now rewrite HasSuffix_nil.
    + reflexivity.
Qed.

(** C4, as amended. [GetChapterContentRange] treats the next reference as
    same-file exactly when the file path of the start reference, as written
    and before normalisation, ends with the file path of the next reference
    (equal paths and an empty next path are such cases); only then, and when
    the next reference has a [#], its fragment is the end fragment.  In every
    other case the end fragment is empty and the call returns what it returns
    without a next reference. *)
Theorem GetChapterContentRange_same_file (href nextHref : gostring) :
  snd (hrefRange href nextHref)
  = match SplitN2 nextHref "#"%char with
    | (next0, Some next1) =>
        if HasSuffix (fst (SplitN2 href "#"%char)) next0 then next1 else []
    | (_, None) => []
    end
  /\ (forall epubPath,
        snd (hrefRange href nextHref) = [] ->
        GetChapterContentRange epubPath href nextHref
        = GetChapterContent epubPath href)
  /\ (forall epubPath files,
        epubPath = Some files ->
        GetChapterContentRange epubPath href nextHref
        = readChapterFile files
            (Filepath.Clean (fst (SplitN2 href "#"%char)))
            (match snd (SplitN2 href "#"%char) with Some f => f | None => [] end)
            (snd (hrefRange href nextHref))).
Proof.
  rewrite hrefRange_eq. cbn [snd]. split; [reflexivity|]. split.
  - intros epubPath H. unfold GetChapterContent, GetChapterContentRange.
    rewrite !hrefRange_eq, H. reflexivity.
  - intros epubPath files ->. unfold GetChapterContentRange.
    now rewrite hrefRange_eq.
Qed.

Lemma GetChapterContentRange_same_file_witness :
  GetChapterContentRange Sample.twoAnchors (lit "OEBPS/ch1.html#a") (lit "ch2.html#b")
  = GetChapterContent Sample.twoAnchors (lit "OEBPS/ch1.html#a").
Proof.
  apply (proj1 (proj2 (GetChapterContentRange_same_file
                         (lit "OEBPS/ch1.html#a") (lit "ch2.html#b")))).
  reflexivity.
Defined.

(** C4, as stated, fails.  The start path [ch1.html] is a suffix of the next
    path [OEBPS/ch1.html], and [OEBPS//ch1.html] and [OEBPS/ch1.html] are
    equal after normalisation, yet in both cases the end fragment is not
    used: the slice runs on into the next chapter. *)
Lemma GetChapterContentRange_not_symmetric :
  Spec.sameFile (lit "ch1.html") (lit "OEBPS/ch1.html") = true
  /\ snd (hrefRange (lit "ch1.html#a") (lit "OEBPS/ch1.html#b")) = []
  /\ GetChapterContentRange Sample.twoAnchors (lit "ch1.html#a") (lit "OEBPS/ch1.html#b")
     = Ok (lit "id='a'First." ++ LF :: LF :: lit "Second.")
  /\ GetChapterContentRange Sample.twoAnchors (lit "ch1.html#a") (lit "ch1.html#b")
     = Ok (lit "id='a'First.")
  /\ Spec.sameFile (lit "OEBPS//ch1.html") (lit "OEBPS/ch1.html") = true
  /\ snd (hrefRange (lit "OEBPS//ch1.html#a") (lit "OEBPS/ch1.html#b")) = []
  /\ GetChapterContentRange Sample.twoAnchors (lit "OEBPS//ch1.html#a") (lit "OEBPS/ch1.html#b")
     = Ok (lit "id='a'First." ++ LF :: LF :: lit "Second.").
Proof. vm_compute. repeat split. Qed.

End SameFile.

(** ** Title inference *)

Section Titles.

Import Regexp Calibre.

(** An expression anchored at the start of the text matches nowhere else. *)
Lemma find_anchored (r : regex) (s : gostring) :
  forall x c, prev x = Some c -> find (Seq BeginText r) x s = None.
Proof.
  induction s as [|d s IH]; intros x c Hx; cbn [find matchAt run]; rewrite Hx.
  - reflexivity.
  - now apply (IH (advance d x) d).
Qed.

Lemma MatchString_anchored (r : regex) (s : gostring) :
  MatchString (Seq BeginText r) s
  = match run r (fun x' _ => Some x') ctx0 s with Some _ => true | None => false end.
Proof.
  unfold MatchString. destruct s as [|c s]; cbn [find matchAt run ctx0 prev].
  - now destruct (run r _ _ []).
  - destruct (run r _ _ (c :: s)); [reflexivity|].
    now rewrite (find_anchored r s _ c).
Qed.

(** A repetition that must reach the end of the text succeeds exactly on a
    text of the class that is long enough. *)
Lemma rep_to_end {A : Type} (p : ascii -> bool) (k : ctx -> gostring -> option A) :
  (forall x, k x [] <> None) ->
  (forall x c s, k x (c :: s) = None) ->
  forall s lo x,
    rep p lo None k x s <> None <-> (forallb p s = true /\ lo <= length s).
Proof.
  intros Hend Hmore.
  induction s as [|c s IH]; intros lo x; cbn [rep forallb length option_map].
  - destruct lo; split.
    + intros _. split; [reflexivity|lia].
    + intros _. apply Hend.
    + intros H. now contradiction H.
    + intros [_ H]. lia.
  - rewrite Hmore. destruct (p c) eqn:Hc; cbn [andb].
    + specialize (IH (Nat.pred lo) (advance c x)).
      destruct (rep p (Nat.pred lo) None k (advance c x) s) as [v|].
      * split; [|discriminate].
        intros _. destruct (proj1 IH) as [Hall Hlen]; [discriminate|].
        split; [exact Hall|lia].
      * split.
        { destruct lo; intros H; now contradiction H. }
        intros [Hall Hlen]. exfalso. apply (proj2 IH); [|reflexivity].
        split; [exact Hall|lia].
    + split.
      * destruct lo; intros H; now contradiction H.
      * intros [H _]. discriminate.
Qed.

Lemma MatchString_reRoman (line : gostring) :
  MatchString reRoman line = Spec.bareRoman line.
Proof.
  unfold reRoman. cbn [seqs]. rewrite MatchString_anchored.
  change (run (Seq roman EndText) (fun x' _ => Some x') ctx0 line)
    with (rep (oneOf "IVXLC") 1 None (run EndText (fun x' _ => Some x')) ctx0 line).
  unfold Spec.bareRoman.
  assert (H : rep (oneOf "IVXLC") 1 None (run EndText (fun x' _ => Some x')) ctx0 line
              <> None
              <-> forallb (oneOf "IVXLC") line = true /\ 1 <= length line).
  { apply rep_to_end; [discriminate|reflexivity]. }
  destruct (rep (oneOf "IVXLC") 1 None _ ctx0 line) as [v|].
  - destruct (proj1 H) as [Hall Hlen]; [discriminate|].
    rewrite Hall. destruct line; [simpl in Hlen; lia|reflexivity].
  - destruct (forallb (oneOf "IVXLC") line) eqn:Hall.
    + destruct line as [|c line]; [reflexivity|].
      exfalso. apply (proj2 H); [|reflexivity]. split; [reflexivity|simpl; lia].
    + now rewrite andb_false_r.
Qed.

Lemma collectLines_eq (lines : list gostring) :
  forall acc,
    length acc < 5 ->
    collectLines lines acc
    = firstn 5 (acc ++ filter (fun line => negb (isEmpty line)) (map TrimSpace lines)).
Proof.
  induction lines as [|line rest IH]; intros acc Hacc; cbn [collectLines map filter].
  - rewrite app_nil_r, firstn_all2; [reflexivity|lia].
  - destruct (isEmpty (TrimSpace line)) eqn:E; cbn [negb].
    + now apply IH.
    + destruct (5 <=? length (acc ++ [TrimSpace line])) eqn:E5.
      * apply Nat.leb_le in E5.
        assert (Hlen : length (acc ++ [TrimSpace line]) = 5)
          by (rewrite length_app in *; cbn [length] in *; lia).
        replace (acc ++ TrimSpace line :: filter (fun l => negb (isEmpty l)) (map TrimSpace rest))
          with ((acc ++ [TrimSpace line]) ++ filter (fun l => negb (isEmpty l)) (map TrimSpace rest))
          by now rewrite <- app_assoc.
        rewrite firstn_app, Hlen, firstn_all2 by lia.
        cbn [Nat.sub firstn]. now rewrite app_nil_r.
      * apply Nat.leb_gt in E5. rewrite IH by exact E5.
        now rewrite <- app_assoc.
Qed.

Lemma collectLines_firstLines (content : gostring) :
  collectLines (GoStrings.Split content LF) [] = Spec.firstLines content.
Proof. rewrite collectLines_eq by (simpl; lia). reflexivity. Qed.



End Titles.

(** ** Chapters from the original navigation document *)

Section OriginalNCX.

Import Calibre.

Variable xmlDecode : gostring -> option Ncx.NCX.

Lemma dense_snoc (chapters : list Models.Chapter) (title content : gostring) :
  dense chapters ->
  dense (chapters ++ [Models.NewChapter (Z.of_nat (length chapters)) title content]).
Proof.
  unfold dense. intro H.
  rewrite map_app, H, length_app, seq_app, map_app. reflexivity.
Qed.

Lemma originalNCXLoop_invariant (P : Models.Chapter -> Prop) (epubPath : Ncx.epub) :
  (forall index title content,
      50 <= length (Fields content) -> P (Models.NewChapter index title content)) ->
  forall chapterEntries i chapters,
    Forall P chapters -> dense chapters ->
    Forall P (originalNCXLoop epubPath i chapterEntries chapters)
    /\ dense (originalNCXLoop epubPath i chapterEntries chapters).
Proof.
  intros HP. induction chapterEntries as [|entry rest IH]; intros i chapters Hall Hd;
    cbn [originalNCXLoop].
  - now split.
  - destruct (Ncx.GetChapterContentRange _ _ _) as [content|e]; [|now apply IH].
    destruct (length (Fields content) <? 50) eqn:E; [now apply IH|].
    apply Nat.ltb_ge in E. apply IH.
    + apply Forall_app. split; [exact Hall|]. constructor; [|constructor].
      now apply HP.
    + now apply dense_snoc.
Qed.

Lemma extractChaptersFromOriginalNCX_loop (epubPath : Ncx.epub) (chapters : list Models.Chapter) :
  extractChaptersFromOriginalNCX xmlDecode epubPath = Ok chapters ->
  exists chapterEntries, chapters = originalNCXLoop epubPath 0 chapterEntries [].
Proof.
  unfold extractChaptersFromOriginalNCX.
  destruct (Ncx.ExtractNCXFromEPUB xmlDecode epubPath) as [ncxDoc|e]; [|discriminate].
  destruct (length (Ncx.GetTOC ncxDoc) =? 0); [discriminate|].
  destruct (length (filterChapterEntries (Ncx.GetTOC ncxDoc)) =? 0); [discriminate|].
  destruct (length (originalNCXLoop _ _ _ _) =? 0); [discriminate|].
  intro H; injection H as <-. now eexists.
Qed.

(** The chapters of the original navigation document are numbered 0, 1, 2,
    ... in the order they are returned, whatever was skipped. *)
Lemma extractChaptersFromOriginalNCX_dense (epubPath : Ncx.epub) (chapters : list Models.Chapter) :
  extractChaptersFromOriginalNCX xmlDecode epubPath = Ok chapters -> dense chapters.
Proof.
  intro H. apply extractChaptersFromOriginalNCX_loop in H as [entries ->].
  apply (originalNCXLoop_invariant (fun _ => True)); try reflexivity; auto.
Qed.


End OriginalNCX.


(** ** Chapter indices *)

(** C1, at inputs where it fails.  A text with two page breaks in a row
    gives chapters numbered 0 and 2; a converted book whose third entry
    points to a missing file gives chapters numbered 0, 1 and 3.  On the
    same book, the extraction from the original navigation document, which
    numbers a chapter by the count of chapters so far, gives 0 and 1. *)
Theorem chapter_index_gaps :
  map Models.Index
      (Calibre.splitIntoChapters (lit "First part." ++ FF :: FF :: lit "Second part."))
  = [0; 2]%Z
  /\ Sample.indices (Calibre.extractChaptersWithCalibreNCX Sample.decode Sample.world)
     = Some [0; 1; 3]%Z
  /\ Sample.indices (Calibre.ExtractChaptersWithOptions Sample.decode Sample.world)
     = Some [0; 1; 3]%Z
  /\ Sample.indices (Calibre.extractChaptersFromOriginalNCX Sample.decode Sample.book)
     = Some [0; 1]%Z.
Proof. vm_compute. repeat split. Qed.

(** ** Plain-text segmentation *)

Section Segmenter.

Import Calibre.








(** What the star-separator split keeps is trimmed and longer than [n]. *)
Lemma keep_long_parts (n : nat) (parts : list gostring) :
  forall chapters,
    Forall (fun ch => TrimSpace ch = ch /\ n < length ch) chapters ->
    Forall (fun ch => TrimSpace ch = ch /\ n < length ch)
           (fold_left (fun chapters part =>
                         let trimmed := TrimSpace part in
                         if n <? length trimmed then chapters ++ [trimmed] else chapters)
                      parts chapters).
Proof.
  induction parts as [|part rest IH]; intros chapters H; cbn [fold_left]; [exact H|].
  apply IH. destruct (n <? length (TrimSpace part)) eqn:E; [|exact H].
  apply Nat.ltb_lt in E. apply Forall_app. split; [exact H|].
  constructor; [|constructor]. split; [apply TrimSpace_idem|exact E].
Qed.

Lemma splitByStarSeparator_cases (content : gostring) :
  splitByStarSeparator content = [content]
  \/ (3 <= length (splitByStarSeparator content)
      /\ Forall (fun ch => TrimSpace ch = ch /\ 500 < length ch)
                (splitByStarSeparator content)).
Proof.
  unfold splitByStarSeparator.
  destruct (3 <=? length (fold_left _ _ _)) eqn:E; [|now left].
  right. apply Nat.leb_le in E. split; [exact E|].
  apply keep_long_parts. constructor.
Qed.

Lemma partsOfMatches_long (content : gostring) (matches : list (nat * nat)) :
  Forall (fun part => TrimSpace part = part /\ 100 < length part)
         (partsOfMatches content matches).
Proof.
  unfold partsOfMatches.
  set (step := fun (st : list gostring * nat) (m : nat * nat) => _).
  assert (H : forall ms st,
             Forall (fun part => TrimSpace part = part /\ 100 < length part) (fst st) ->
             Forall (fun part => TrimSpace part = part /\ 100 < length part)
                    (fst (fold_left step ms st))).
  { induction ms as [|m ms IH]; intros [parts lastEnd] Hst; cbn [fold_left];
      [exact Hst|].
    apply IH. unfold step. cbn [fst].
    destruct (lastEnd <? fst m); [|exact Hst].
    destruct (100 <? length (TrimSpace (slice content lastEnd (fst m)))) eqn:E;
      [|exact Hst].
    destruct (0 <? lastEnd); cbn [andb]; [|exact Hst].
    apply Nat.ltb_lt in E. apply Forall_app. split; [exact Hst|].
    constructor; [|constructor]. split; [apply TrimSpace_idem|exact E]. }
  specialize (H matches ([], 0) (Forall_nil _)).
  destruct (fold_left step matches ([], 0)) as [parts lastEnd]. cbn [fst] in H.
  destruct (lastEnd <? length content); [|exact H].
  destruct (100 <? length (TrimSpace (skipn lastEnd content))) eqn:E; [|exact H].
  apply Nat.ltb_lt in E. apply Forall_app. split; [exact H|].
  constructor; [|constructor]. split; [apply TrimSpace_idem|exact E].
Qed.

Lemma splitByChapterPatterns_cases (content : gostring) :
  splitByChapterPatterns content = [content]
  \/ (3 <= length (splitByChapterPatterns content)
      /\ Forall (fun part => TrimSpace part = part /\ 100 < length part)
                (splitByChapterPatterns content)).
Proof.
  unfold splitByChapterPatterns.
  induction chapterPatterns as [|re rest IH]; cbn [tryPatterns]; [now left|].
  destruct (3 <=? length (Regexp.FindAllStringIndex re content)); [|exact IH].
  destruct (3 <=? length (partsOfMatches content _)) eqn:E; [|exact IH].
  right. apply Nat.leb_le in E. split; [exact E|apply partsOfMatches_long].
Qed.















End Segmenter.

(** ** Star-separator split *)

Section StarSeparator.

Import Regexp Calibre.










End StarSeparator.

(** ** Chapters: word count and summary *)

Section ChapterFacts.

Import Models.

Lemma countWordsFrom_count (text : gostring) :
  forall inWord count,
    countWordsFrom inWord count text = (count + countWordsFrom inWord 0 text)%Z.
Proof.
  induction text as [|r rest IH]; intros inWord count; cbn [countWordsFrom].
  - lia.
  - fold (wordSpace r). destruct (wordSpace r); [apply IH|].
    destruct inWord; cbn [negb]; [apply IH|].
    rewrite (IH true (count + 1)%Z), (IH true (0 + 1)%Z). lia.
Qed.

Lemma countWords_eq (text : gostring) : countWords text = countWordsFrom false 0 text.
Proof. now destruct text. Qed.

Lemma countWordsFrom_bounds (text : gostring) :
  forall inWord,
    (0 <= countWordsFrom inWord 0 text <= Z.of_nat (length text))%Z.
Proof.
  induction text as [|r rest IH]; intros inWord; cbn [countWordsFrom length].
  - lia.
  - fold (wordSpace r). destruct (wordSpace r); [specialize (IH false); lia|].
    destruct inWord; cbn [negb]; [specialize (IH true); lia|].
    rewrite countWordsFrom_count. specialize (IH true). lia.
Qed.

Lemma countWordsFrom_zero (text : gostring) :
  forall inWord,
    countWordsFrom inWord 0 text = 0%Z ->
    inWord = false -> forallb wordSpace text = true.
Proof.
  induction text as [|r rest IH]; intros inWord H Hw; cbn [countWordsFrom forallb] in *;
    [reflexivity|].
  fold (wordSpace r) in H. subst inWord. destruct (wordSpace r); cbn [negb andb] in *.
  - now apply (IH false).
  - rewrite countWordsFrom_count in H. pose proof (countWordsFrom_bounds rest true). lia.
Qed.

Lemma countWordsFrom_spaces (text : gostring) :
  forall inWord, forallb wordSpace text = true -> countWordsFrom inWord 0 text = 0%Z.
Proof.
  induction text as [|r rest IH]; intros inWord H; cbn [countWordsFrom forallb] in *;
    [reflexivity|].
  fold (wordSpace r). apply andb_true_iff in H as [Hr Hrest]. rewrite Hr. now apply IH.
Qed.

(** X1. The word count lies between 0 and the byte count, so a chapter never
    has more words than bytes; it is 0 exactly when every byte of the text
    is a space, a tab, a newline or a carriage return. *)
Theorem countWords_bounds (text : gostring) :
  (0 <= countWords text <= Z.of_nat (length text))%Z
  /\ (countWords text = 0%Z <-> forallb wordSpace text = true)
  /\ (forall index title,
         (WordCount (NewChapter index title text)
          <= CharCount (NewChapter index title text))%Z).
Proof.
  rewrite countWords_eq. split; [apply countWordsFrom_bounds|]. split.
  - split; intro H.
    + now apply (countWordsFrom_zero text false).
    + now apply countWordsFrom_spaces.
  - intros index title. cbn [WordCount CharCount NewChapter].
    rewrite countWords_eq. apply countWordsFrom_bounds.
Qed.

Lemma countWordsFrom_app (u v : gostring) (r : ascii) :
  wordSpace r = true ->
  forall inWord,
    countWordsFrom inWord 0 (u ++ r :: v)
    = (countWordsFrom inWord 0 u + countWordsFrom false 0 v)%Z.
Proof.
  intro Hr. induction u as [|c u IH]; intros inWord; cbn [app countWordsFrom].
  - fold (wordSpace r). now rewrite Hr.
  - fold (wordSpace c). destruct (wordSpace c); [apply IH|].
    destruct inWord; cbn [negb]; [apply IH|].
    rewrite (countWordsFrom_count (u ++ r :: v)), (countWordsFrom_count u), IH. lia.
Qed.

Lemma countWordsFrom_word (w : gostring) :
  forallb (fun r => negb (wordSpace r)) w = true ->
  countWordsFrom true 0 w = 0%Z.
Proof.
  induction w as [|r w IH]; intro H; cbn [countWordsFrom forallb] in *; [reflexivity|].
  apply andb_true_iff in H as [Hr Hw]. fold (wordSpace r).
  apply negb_true_iff in Hr. rewrite Hr. cbn [negb]. now apply IH.
Qed.

(** X2. A run of bytes without white space counts as exactly one word,
    whatever its length, and the count of a text is the sum of the counts on
    both sides of any white-space byte in it. *)
Theorem countWords_runs :
  (forall w,
      w <> [] -> forallb (fun r => negb (wordSpace r)) w = true -> countWords w = 1%Z)
  /\ (forall u v r,
         wordSpace r = true ->
         countWords (u ++ r :: v) = (countWords u + countWords v)%Z).
Proof.
  split.
  - intros [|r w] Hne H; [congruence|]. rewrite countWords_eq.
    cbn [countWordsFrom forallb] in *. apply andb_true_iff in H as [Hr Hw].
    fold (wordSpace r). apply negb_true_iff in Hr. rewrite Hr. cbn [negb].
    rewrite countWordsFrom_count, (countWordsFrom_word w Hw). reflexivity.
  - intros u v r Hr. rewrite !countWords_eq. now apply countWordsFrom_app.
Qed.

Lemma countWords_runs_witness :
  countWords (lit "antidisestablishmentarianism") = 1%Z
  /\ countWords (lit "two" ++ TAB :: lit " words") = (countWords (lit "two") + countWords (lit " words"))%Z.
Proof.
  split.
  - apply (proj1 countWords_runs); [discriminate|reflexivity].
  - apply (proj2 countWords_runs). reflexivity.
Defined.




Lemma nth_error_firstn_lt {A : Type} (l : list A) (n i : nat) :
  i < n -> nth_error (firstn n l) i = nth_error l i.
Proof.
  intro H. rewrite nth_error_firstn.
  destruct (Nat.ltb_spec i n); [reflexivity|lia].
Qed.

Lemma summaryLoop_some (text : gostring) (maxLen : Z) (n : nat) (r : gostring) :
  summaryLoop text maxLen n = Some r ->
  r = text ++ lit "..."
  \/ exists k,
       r = firstn k text ++ lit "..."
       /\ (maxLen - 20 < Z.of_nat k <= maxLen - 20 + Z.of_nat n)%Z
       /\ nth_error text k = Some SP.
Proof.
  induction n as [|n IH]; cbn [summaryLoop].
  - intro H; injection H as <-. now left.
  - destruct (Z.ltb_spec (maxLen - 20 + Z.of_nat (S n)) 0); [discriminate|].
    destruct (nth_error text (Z.to_nat (maxLen - 20 + Z.of_nat (S n)))) as [c|] eqn:E;
      [|discriminate].
    destruct (Ascii.eqb_spec c SP) as [->|_].
    + intro Hr; injection Hr as <-. right.
      exists (Z.to_nat (maxLen - 20 + Z.of_nat (S n))). repeat split; [lia|lia|exact E].
    + intro Hr. destruct (IH Hr) as [->|[k [-> [Hk Hsp]]]]; [now left|].
      right. exists k. repeat split; [lia|lia|exact Hsp].
Qed.

Lemma summaryLoop_none (text : gostring) (maxLen : Z) (n : nat) :
  Z.of_nat (length text) = maxLen -> n <= 19 ->
  summaryLoop text maxLen n = None
  <-> ((maxLen < 19)%Z /\ 1 <= n
       /\ forall k, (Z.of_nat k <= maxLen - 20 + Z.of_nat n)%Z -> nth_error text k <> Some SP).
Proof.
  intros Hlen. induction n as [|n IH]; intro Hn; cbn [summaryLoop].
  - split; [discriminate|]. intros [_ [H _]]. lia.
  - destruct (Z.ltb_spec (maxLen - 20 + Z.of_nat (S n)) 0) as [Hneg|Hpos].
    + split; [|reflexivity]. intros _. repeat split; [lia|lia|].
      intros k Hk. lia.
    + destruct (nth_error text (Z.to_nat (maxLen - 20 + Z.of_nat (S n)))) as [c|] eqn:E.
      2:{ apply nth_error_None in E. lia. }
      destruct (Ascii.eqb_spec c SP) as [->|Hc].
      * split; [discriminate|]. intros [_ [_ H]]. exfalso.
        apply (H (Z.to_nat (maxLen - 20 + Z.of_nat (S n)))); [lia|exact E].
      * rewrite IH by lia. split.
        { intros [H19 [H1 H]]. repeat split; [exact H19|lia|].
          intros k Hk.
          destruct (Z.eq_dec (Z.of_nat k) (maxLen - 20 + Z.of_nat (S n))) as [Heq|Hne].
          - replace k with (Z.to_nat (maxLen - 20 + Z.of_nat (S n))) by lia.
            rewrite E. congruence.
          - apply H. lia. }
        { intros [H19 [_ H]]. repeat split; [exact H19|lia|].
          intros k Hk. apply H. lia. }
Qed.

(** X4. When [Summary] returns, it returns the content itself if that is at
    most [maxLen] bytes long; otherwise the first [k] bytes of the content
    followed by three dots, with [maxLen-20 < k <= maxLen] and, when
    [k < maxLen], a space at offset [k]: it never cuts more than 19 bytes
    short.  So a summary is never longer than [maxLen + 3] bytes. *)
Theorem Summary_cut (c : Chapter) (maxLen : Z) (r : gostring) :
  Summary c maxLen = Some r ->
  ((Z.of_nat (length (Content c)) <= maxLen)%Z /\ r = Content c
   \/ (0 <= maxLen < Z.of_nat (length (Content c)))%Z
      /\ exists k,
           r = firstn k (Content c) ++ lit "..."
           /\ (maxLen - 20 < Z.of_nat k <= maxLen)%Z
           /\ ((Z.of_nat k < maxLen)%Z -> nth_error (Content c) k = Some SP))
  /\ (Z.of_nat (length r) <= Z.max maxLen (maxLen + 3))%Z.
Proof.
  unfold Summary.
  destruct (Z.leb_spec (Z.of_nat (length (Content c))) maxLen) as [Hfit|Hlong].
  { intro H; injection H as <-. split; [now left|lia]. }
  destruct (Z.ltb_spec maxLen 0) as [|Hpos]; [discriminate|].
  intro H.
  assert (Htext : length (firstn (Z.to_nat maxLen) (Content c)) = Z.to_nat maxLen)
    by (rewrite length_firstn; lia).
  assert (Hk : exists k,
             r = firstn k (Content c) ++ lit "..."
             /\ (maxLen - 20 < Z.of_nat k <= maxLen)%Z
             /\ ((Z.of_nat k < maxLen)%Z -> nth_error (Content c) k = Some SP)).
  { apply summaryLoop_some in H as [->|[k [-> [Hk Hsp]]]].
    - exists (Z.to_nat maxLen). repeat split; lia.
    - exists k. split; [|split; [lia|]].
      + rewrite firstn_firstn. f_equal. f_equal. lia.
      + intros _. rewrite <- Hsp. symmetry. apply nth_error_firstn_lt. lia. }
  split; [right; split; [lia|exact Hk]|].
  destruct Hk as [k [-> [Hk _]]].
  rewrite length_app, length_firstn. cbn [lit list_ascii_of_string length]. lia.
Qed.

Lemma Summary_cut_witness :
  (Z.of_nat (length (lit "It was the best of times, it...")) <= Z.max 30 (30 + 3))%Z.
Proof.
  apply (proj2 (Summary_cut
                  (NewChapter 0 (lit "I") (lit "It was the best of times, it was the worst of times"))
                  30 (lit "It was the best of times, it...") eq_refl)).
Defined.

(** X5. [Summary] panics exactly when the content is longer than [maxLen]
    and either [maxLen] is negative, or [maxLen] is below 19 and none of the
    first [maxLen] bytes is a space: the search for a space then runs past
    the start of the text. *)
Theorem Summary_panics (c : Chapter) (maxLen : Z) :
  Summary c maxLen = None
  <-> (maxLen < Z.of_nat (length (Content c)))%Z
      /\ ((maxLen < 0)%Z
          \/ (maxLen < 19)%Z
             /\ forall k, (Z.of_nat k < maxLen)%Z -> nth_error (Content c) k <> Some SP).
Proof.
  unfold Summary.
  destruct (Z.leb_spec (Z.of_nat (length (Content c))) maxLen) as [Hfit|Hlong].
  { split; [discriminate|]. intros [H _]. lia. }
  destruct (Z.ltb_spec maxLen 0) as [Hneg|Hpos].
  { split; [|reflexivity]. intros _. split; [lia|now left]. }
  assert (Htext : Z.of_nat (length (firstn (Z.to_nat maxLen) (Content c))) = maxLen)
    by (rewrite length_firstn; lia).
  rewrite (summaryLoop_none _ _ 19 Htext (le_n _)). split.
  - intros [H19 [_ H]]. split; [lia|]. right. split; [exact H19|].
    intros k Hk. rewrite <- (nth_error_firstn_lt _ (Z.to_nat maxLen)) by lia. apply H. lia.
  - intros [_ [Hneg|[H19 H]]]; [lia|]. repeat split; [exact H19|lia|].
    intros k Hk. rewrite nth_error_firstn_lt by lia. apply H. lia.
Qed.

End ChapterFacts.

(** ** Navigation: what the flat list holds *)

Section FlatList.

Import Ncx.

Lemma flattenNavPoint_length (np : NavPoint) :
  forall level, length (flattenNavPoint np level) = countPoints np.
Proof.
  induction np as [id o c l ct children IH] using NavPoint_induction.
  intros level. rewrite flattenNavPoint_eq. cbn [length countPoints Children]. f_equal.
  induction IH as [|child rest Hc _ IHrest]; cbn [flat_map map list_sum]; [reflexivity|].
  now rewrite length_app, Hc, IHrest.
Qed.

Lemma flattenNavPoint_levels (np : NavPoint) :
  forall level,
    Forall (fun e => (level <= Level e)%Z /\ SubEntries e = [])
           (flattenNavPoint np level).
Proof.
  induction np as [id o c l ct children IH] using NavPoint_induction.
  intros level. rewrite flattenNavPoint_eq. constructor.
  - cbn [entryOf Level SubEntries]. split; [lia|reflexivity].
  - cbn [Children].
    induction IH as [|child rest Hc _ IHrest]; cbn [flat_map]; [constructor|].
    apply Forall_app. split; [|exact IHrest].
    eapply Forall_impl; [|apply (Hc (level + 1)%Z)].
    intros e [He Hs]. split; [lia|exact Hs].
Qed.

(** X6. The flat list of [GetTOC] holds one entry for each navigation point
    of the document, none dropped and none repeated; every entry has a level
    of at least 1 and no children of its own; the list is empty exactly when
    the navigation map has no point. *)
Theorem GetTOC_complete (ncx : NCX) :
  length (GetTOC ncx) = list_sum (map countPoints (NavPoints (Map ncx)))
  /\ Forall (fun e => (1 <= Level e)%Z /\ SubEntries e = []) (GetTOC ncx)
  /\ (GetTOC ncx = [] <-> NavPoints (Map ncx) = []).
Proof.
  rewrite GetTOC_eq. split; [|split].
  - induction (NavPoints (Map ncx)) as [|np rest IH]; cbn [flat_map map list_sum];
      [reflexivity|].
    now rewrite length_app, flattenNavPoint_length, IH.
  - induction (NavPoints (Map ncx)) as [|np rest IH]; cbn [flat_map]; [constructor|].
    apply Forall_app. split; [apply flattenNavPoint_levels|exact IH].
  - destruct (NavPoints (Map ncx)) as [|np rest]; cbn [flat_map]; [tauto|].
    split; [|discriminate]. rewrite flattenNavPoint_eq. discriminate.
Qed.

End FlatList.

(** ** Content locator: every case *)

Section LocatorCases.

Import Ncx.

(** X7. Whatever the fragments, the content locator returns a contiguous
    piece of the markup it is given: all of it when the start fragment is
    not found; otherwise a piece that begins at the offset of the start
    attribute and, when the end fragment is empty or not found after it,
    runs to the end of the markup. *)
Theorem extractFragmentContent_piece (html startFragment endFragment : gostring) :
  exists before after,
    html = before ++ extractFragmentContent html startFragment endFragment ++ after
    /\ (firstIndex html (fragmentPatterns startFragment) = None ->
        before = [] /\ after = [])
    /\ (forall startIdx,
           firstIndex html (fragmentPatterns startFragment) = Some startIdx ->
           length before = startIdx
           /\ extractFragmentContent html startFragment endFragment <> []
           /\ (endFragment = []
               \/ firstIndex (skipn (startIdx + 1) html) (fragmentPatterns endFragment) = None ->
               after = [])).
Proof.
  unfold extractFragmentContent.
  destruct (firstIndex html (fragmentPatterns startFragment)) as [startIdx|] eqn:Hs.
  2:{ exists [], []. rewrite app_nil_r. repeat split; discriminate. }
  destruct (firstIndex_In _ _ _ Hs) as [ps [Hps His]].
  pose proof (Index_bound _ _ _ His) as Hb.
  pose proof (fragmentPatterns_nonempty _ _ Hps) as Hl.
  set (endIdx := if isEmpty endFragment then length html
                 else match firstIndex (skipn (startIdx + 1) html)
                                       (fragmentPatterns endFragment) with
                      | Some idx => startIdx + 1 + idx
                      | None => length html
                      end).
  assert (Hend : startIdx < endIdx <= length html).
  { unfold endIdx. destruct (isEmpty endFragment); [lia|].
    destruct (firstIndex (skipn (startIdx + 1) html) (fragmentPatterns endFragment))
      as [idx|] eqn:He; [|lia].
    destruct (firstIndex_In _ _ _ He) as [pe [Hpe Hie]].
    pose proof (Index_bound _ _ _ Hie) as Hbe.
    pose proof (fragmentPatterns_nonempty _ _ Hpe) as Hle.
    rewrite length_skipn in Hbe. lia. }
  exists (firstn startIdx html), (skipn endIdx html).
  split; [apply slice_decompose; lia|]. split; [discriminate|].
  intros s' Hs'. injection Hs' as <-. split; [rewrite length_firstn; lia|]. split.
  - intro H. apply (f_equal (@length _)) in H. rewrite slice_length in H by lia.
    simpl in H. lia.
  - intros Hno. assert (endIdx = length html) as ->.
    { unfold endIdx. destruct Hno as [Hno | Hno]; rewrite Hno; [reflexivity|].
      now destruct (isEmpty endFragment). }
    apply skipn_all.
Qed.

End LocatorCases.

(** ** Removal of regions: what is removed *)

Section RemoveRegion.

Import Ncx.





Lemma firstn_length_app {A : Type} (a b : list A) : firstn (length a) (a ++ b) = a.
Proof. induction a as [|x a IH]; [reflexivity|]. cbn [length app firstn]. now rewrite IH. Qed.







(** X11. The plain text [htmlToText] returns is a list of paragraphs joined
    by one blank line: each paragraph is not empty, neither starts nor ends
    with white space, and holds no newline, no [<] and no [>]. *)
Theorem htmlToText_paragraphs (html : gostring) :
  exists paragraphs,
    htmlToText html = Join paragraphs [LF; LF]
    /\ Forall (fun line => line <> [] /\ TrimSpace line = line /\ ~ In LF line
                           /\ ~ In LT line /\ ~ In GT line) paragraphs.
Proof.
  destruct (htmlToText_stripped html) as [text ->].
  eexists. split; [reflexivity|].
  pose proof (normal_lines_good (stripTags false text)) as Hgood.
  rewrite Forall_forall in *. intros line Hline.
  destruct (Hgood line Hline) as [Hne [Htrim Hlf]].
  repeat split; try assumption.
  - intro Hin. apply filter_In in Hline as [Hline _].
    apply in_map_iff in Hline as [part [<- Hpart]]. apply TrimSpace_In in Hin.
    pose proof (splitAcc_parts LF (stripTags false text) [] (fun H => H)) as Hparts.
    rewrite Forall_forall in Hparts.
    destruct (proj2 (Hparts part Hpart) LT Hin) as [[]|Hs].
    apply stripTags_In in Hs. tauto.
  - intro Hin. apply filter_In in Hline as [Hline _].
    apply in_map_iff in Hline as [part [<- Hpart]]. apply TrimSpace_In in Hin.
    pose proof (splitAcc_parts LF (stripTags false text) [] (fun H => H)) as Hparts.
    rewrite Forall_forall in Hparts.
    destruct (proj2 (Hparts part Hpart) GT Hin) as [[]|Hs].
    apply stripTags_In in Hs. tauto.
Qed.

End RemoveRegion.

(** ** Reading a chapter from the archive *)

Section ReadChapter.

Import Ncx.

Lemma streq_HasSuffix (a b : gostring) :
  streq a b || HasSuffix a b = HasSuffix a b.
Proof.
  destruct (streq a b) eqn:E; [|reflexivity].
  apply streq_eq in E. subst. now rewrite HasSuffix_refl.
Qed.

Lemma readChapterFile_find (files : list zipFile) (filePath startFragment endFragment : gostring) :
  readChapterFile files filePath startFragment endFragment
  = match List.find (fun f => HasSuffix (Name f) filePath) files with
    | None => Err ErrChapterFileNotFound
    | Some f =>
        match Body f with
        | None => Err ErrReadFile
        | Some data =>
            Ok (htmlToText (if isEmpty startFragment then data
                            else extractFragmentContent data startFragment endFragment))
        end
    end.
Proof.
  induction files as [|f rest IH]; cbn [readChapterFile List.find]; [reflexivity|].
  rewrite streq_HasSuffix. destruct (HasSuffix (Name f) filePath); [|exact IH].
  destruct (Body f); [|reflexivity]. now destruct (isEmpty startFragment).
Qed.

(** X12. [GetChapterContentRange] reads the first member of the archive, in
    archive order, whose name ends with the normalised file path of the
    reference: an exact name later in the archive is not preferred.  When no
    member has such a name the error is "chapter file not found"; when that
    first member cannot be read the call fails, whatever follows it. *)
Theorem GetChapterContentRange_first_match
    (files : list zipFile) (href nextHref : gostring) :
  GetChapterContentRange (Some files) href nextHref
  = match List.find
            (fun f => HasSuffix (Name f) (Filepath.Clean (fst (SplitN2 href "#"%char))))
            files with
    | None => Err ErrChapterFileNotFound
    | Some f =>
        match Body f with
        | None => Err ErrReadFile
        | Some data =>
            Ok (htmlToText
                  (match snd (SplitN2 href "#"%char) with
                   | None | Some [] => data
                   | Some fragment =>
                       extractFragmentContent data fragment (snd (hrefRange href nextHref))
                   end))
        end
    end.
Proof.
  unfold GetChapterContentRange. rewrite hrefRange_eq. cbn [snd].
  rewrite readChapterFile_find.
  destruct (List.find _ files) as [f|]; [|reflexivity].
  destruct (Body f); [|reflexivity].
  now destruct (snd (SplitN2 href "#"%char)) as [[|c fragment]|].
Qed.

Lemma readChapterFile_no_fragment (files : list zipFile) (filePath e e' : gostring) :
  readChapterFile files filePath [] e = readChapterFile files filePath [] e'.
Proof. now rewrite !readChapterFile_find. Qed.

(** X13. A reference without fragment, or with an empty one, gives the text
    of the whole file, whatever the next reference is. *)
Theorem GetChapterContentRange_whole_file (epubPath : epub) (href nextHref : gostring) :
  snd (SplitN2 href "#"%char) = None \/ snd (SplitN2 href "#"%char) = Some [] ->
  GetChapterContentRange epubPath href nextHref = GetChapterContent epubPath href.
Proof.
  intro H. unfold GetChapterContent, GetChapterContentRange.
  destruct epubPath as [files|]; [|reflexivity].
  rewrite !hrefRange_eq. destruct H as [-> | ->]; apply readChapterFile_no_fragment.
Qed.

Lemma GetChapterContentRange_whole_file_witness :
  GetChapterContentRange Sample.twoAnchors (lit "OEBPS/ch1.html") (lit "OEBPS/ch1.html#b")
  = GetChapterContent Sample.twoAnchors (lit "OEBPS/ch1.html").
Proof. apply GetChapterContentRange_whole_file. left. reflexivity. Defined.

End ReadChapter.

(** ** Entry classifier *)

Section Classifier.

Import Calibre.

Lemma filterChapterEntries_filter (entries : list Ncx.TOCEntry) :
  filterChapterEntries entries = filter keepEntry entries.
Proof.
  unfold filterChapterEntries.
  set (step := fun (chapters : list Ncx.TOCEntry) (entry : Ncx.TOCEntry) => _).
  enough (H : forall acc, fold_left step entries acc = acc ++ filter keepEntry entries)
    by apply (H []).
  induction entries as [|e rest IH]; intros acc; cbn [fold_left filter].
  - now rewrite app_nil_r.
  - rewrite IH. unfold step, keepEntry.
    destruct (existsb _ skipPatterns); [reflexivity|].
    destruct (length (Ncx.Title e) <? 2); [reflexivity|].
    match goal with
    | |- (if ?b then _ else _) ++ _ = _ => destruct b
    end; [now rewrite <- app_assoc|reflexivity].
Qed.

Lemma filter_idem {A : Type} (f : A -> bool) (l : list A) :
  filter f (filter f l) = filter f l.
Proof.
  induction l as [|x l IH]; cbn [filter]; [reflexivity|].
  destruct (f x) eqn:E; cbn [filter]; [|exact IH]. now rewrite E, IH.
Qed.

(** X14. [filterChapterEntries] judges each entry on its own: the entries it
    keeps are entries of the input, in the order of the input; filtering a
    concatenation is concatenating the filtered lists; filtering twice is
    filtering once. *)
Theorem filterChapterEntries_pointwise (entries more : list Ncx.TOCEntry) :
  filterChapterEntries (entries ++ more)
  = filterChapterEntries entries ++ filterChapterEntries more
  /\ filterChapterEntries (filterChapterEntries entries) = filterChapterEntries entries
  /\ (forall e, In e (filterChapterEntries entries) -> In e entries)
  /\ length (filterChapterEntries entries) <= length entries.
Proof.
  rewrite !filterChapterEntries_filter. split; [apply filter_app|].
  split; [apply filter_idem|]. split.
  - intros e H. apply filter_In in H. tauto.
  - apply filter_length_le.
Qed.



End Classifier.

(** ** Titles: never empty, numerals normalised *)

Section TitleFacts.

Import Regexp Calibre.

Lemma TrimSpace_fixed_head (s : gostring) :
  TrimSpace s = s -> match s with [] => True | c :: _ => isSpace c = false end.
Proof.
  intro H. apply TrimLeft_fixed.
  destruct (TrimLeft_split s) as [p [Hs _]].
  destruct (TrimRight_split (TrimLeft s)) as [q [Ht _]].
  fold (TrimSpace s) in Ht. rewrite H in Ht.
  assert (Hp : p = []).
  { apply (f_equal (@length _)) in Hs. apply (f_equal (@length _)) in Ht.
    rewrite length_app in Hs, Ht. apply length_zero_iff_nil. lia. }
  subst p. now symmetry.
Qed.

Lemma isSpace_lowerByte (c : ascii) : isSpace (lowerByte c) = isSpace c.
Proof. destruct c as [[] [] [] [] [] [] [] []]; reflexivity. Qed.

Lemma fieldsAcc_current (s cur : gostring) :
  cur <> [] -> exists w ws, fieldsAcc cur s = w :: ws /\ w <> [].
Proof.
  revert cur; induction s as [|c s IH]; intros cur Hcur; cbn [fieldsAcc].
  - destruct cur as [|d cur]; [congruence|]. exists (rev (d :: cur)), [].
    split; [reflexivity|]. intro H. apply (f_equal (@length _)) in H.
    rewrite length_rev in H. discriminate.
  - destruct (isSpace c).
    + destruct cur as [|d cur]; [congruence|]. exists (rev (d :: cur)), (fieldsAcc [] s).
      split; [reflexivity|]. intro H. apply (f_equal (@length _)) in H.
      rewrite length_rev in H. discriminate.
    + apply IH. discriminate.
Qed.

Lemma Join_nonempty (w : gostring) (ws : list gostring) (sep : gostring) :
  w <> [] -> Join (w :: ws) sep <> [].
Proof.
  intro H. destruct ws as [|w' ws]; cbn [Join]; [exact H|].
  destruct w; [congruence|discriminate].
Qed.

Lemma titleCase_nonempty (s : gostring) :
  s <> [] -> TrimSpace s = s -> titleCase s <> [].
Proof.
  intros Hne Htrim. unfold titleCase.
  destruct (streq s (ToUpper s) && (10 <? length s)); [|exact Hne].
  destruct s as [|c r]; [congruence|].
  pose proof (TrimSpace_fixed_head _ Htrim) as Hc. cbn beta iota in Hc.
  unfold Fields. cbn [ToLower map fieldsAcc]. rewrite isSpace_lowerByte, Hc.
  destruct (fieldsAcc_current (map lowerByte r) [lowerByte c]) as [w [ws [-> Hw]]];
    [discriminate|].
  cbn [map]. apply Join_nonempty. destruct w; [congruence|discriminate].
Qed.

Lemma TrimSuffix_dot_nonempty (s : gostring) :
  s <> [] -> s <> lit "." -> TrimSuffix s (lit ".") <> [].
Proof.
  intros Hne Hdot. unfold TrimSuffix.
  destruct (HasSuffix s (lit ".")) eqn:E; [|exact Hne].
  apply HasSuffix_app in E as [r ->].
  destruct r as [|c r]; [now contradiction Hdot|].
  rewrite length_app. cbn [length lit list_ascii_of_string firstn Nat.add Nat.sub].
  replace (length r + 1 - 0) with (S (length r)) by lia. discriminate.
Qed.

Lemma formatChapterTitle_nonempty (s : gostring) :
  s <> [] -> TrimSpace s = s -> s <> lit "." -> formatChapterTitle s <> [].
Proof.
  intros Hne Htrim Hdot. unfold formatChapterTitle. rewrite Htrim.
  destruct (MatchString reRoman _); [discriminate|].
  destruct (MatchString reDigits _); [discriminate|].
  now apply TrimSuffix_dot_nonempty.
Qed.

Lemma titleOfFirstLine_nonempty (firstLine : gostring) (defaultNum : Z) :
  firstLine <> [] -> TrimSpace firstLine = firstLine ->
  titleOfFirstLine firstLine defaultNum <> [].
Proof.
  intros Hne Htrim.
  destruct (list_eq_dec ascii_dec firstLine (lit ".")) as [->|Hdot].
  { vm_compute. discriminate. }
  unfold titleOfFirstLine.
  destruct (MatchString reChapterHeading firstLine && (length firstLine <? 80));
    [exact Hne|].
  destruct (MatchString reRomanTitle firstLine
            && (3 <=? length (FindStringSubmatch reRomanTitle 2 firstLine)));
    [discriminate|].
  destruct (MatchString reRomanDot firstLine);
    [now apply formatChapterTitle_nonempty|].
  destruct (MatchString reDigitsDot firstLine);
    [now apply formatChapterTitle_nonempty|].
  destruct ((length firstLine <? 60) && (3 <? length firstLine));
    [now apply titleCase_nonempty|discriminate].
Qed.

Lemma firstLines_good (content : gostring) :
  Forall (fun line => line <> [] /\ TrimSpace line = line) (Spec.firstLines content).
Proof.
  unfold Spec.firstLines. apply Forall_forall. intros line H.
  pose proof (normal_lines_good content) as Hgood. rewrite Forall_forall in Hgood.
  assert (Hin : In line (filter (fun line => negb (isEmpty line))
                                (map TrimSpace (GoStrings.Split content LF)))).
  { rewrite <- (firstn_skipn 5 (filter _ _)). apply in_or_app. now left. }
  destruct (Hgood line Hin) as [Hne [Htrim _]]. now split.
Qed.

Lemma detectChapterTitle_not_nil (content : gostring) (defaultNum : Z) :
  detectChapterTitle content defaultNum <> [].
Proof.
  unfold detectChapterTitle. rewrite collectLines_firstLines.
  pose proof (firstLines_good content) as Hgood.
  destruct (Spec.firstLines content) as [|firstLine others]; [discriminate|].
  inversion Hgood as [|? ? [Hne Htrim] _]; subst.
  destruct others as [|titleLine others];
    [now apply titleOfFirstLine_nonempty|].
  destruct (MatchString reRoman firstLine); [|now apply titleOfFirstLine_nonempty].
  destruct ((5 <? length titleLine) && (length titleLine <? 100)); discriminate.
Qed.

(** X16. The title [detectChapterTitle] infers is never empty, whatever the
    text and the fallback number. *)
Theorem detectChapterTitle_nonempty (content : gostring) (defaultNum : Z) :
  detectChapterTitle content defaultNum <> [].
Proof. apply detectChapterTitle_not_nil. Qed.

Lemma MatchString_all (p : ascii -> bool) (line : gostring) :
  MatchString (seqs [BeginText; plus p; EndText]) line
  = negb (isEmpty line) && forallb p line.
Proof.
  cbn [seqs]. rewrite MatchString_anchored.
  change (run (Seq (plus p) EndText) (fun x' _ => Some x') ctx0 line)
    with (rep p 1 None (run EndText (fun x' _ => Some x')) ctx0 line).
  assert (H : rep p 1 None (run EndText (fun x' _ => Some x')) ctx0 line <> None
              <-> forallb p line = true /\ 1 <= length line).
  { apply rep_to_end; [discriminate|reflexivity]. }
  destruct (rep p 1 None _ ctx0 line) as [v|].
  - destruct (proj1 H) as [Hall Hlen]; [discriminate|].
    rewrite Hall. destruct line; [simpl in Hlen; lia|reflexivity].
  - destruct (forallb p line) eqn:Hall.
    + destruct line as [|c line]; [reflexivity|].
      exfalso. apply (proj2 H); [|reflexivity]. split; [reflexivity|simpl; lia].
    + now rewrite andb_false_r.
Qed.

Lemma TrimSpace_fixed (s : gostring) :
  match s with [] => True | c :: _ => isSpace c = false end ->
  match rev s with [] => True | c :: _ => isSpace c = false end ->
  TrimSpace s = s.
Proof.
  intros Hhead Hlast. unfold TrimSpace, TrimRight.
  rewrite (proj2 (TrimLeft_fixed s) Hhead), (proj2 (TrimLeft_fixed (rev s)) Hlast).
  apply rev_involutive.
Qed.

Lemma numeral_class (c : ascii) :
  oneOf "IVXLC" c || digit c = true -> isSpace c = false /\ Ascii.eqb "."%char c = false.
Proof. destruct c as [[] [] [] [] [] [] [] []]; intro H; vm_compute in H |- *;
         first [discriminate H | split; reflexivity]. Qed.

(** The trimming steps of [formatChapterTitle] on a numeral, with and
    without a final dot. *)
Lemma numeral_trimmed (t : gostring) :
  t <> [] -> forallb (fun c => oneOf "IVXLC" c || digit c) t = true ->
  TrimSuffix (TrimSpace t) (lit ".") = t
  /\ TrimSuffix (TrimSpace (t ++ lit ".")) (lit ".") = t.
Proof.
  intros Hne Hall. rewrite forallb_forall in Hall.
  assert (Hhead : match t with [] => True | c :: _ => isSpace c = false end).
  { destruct t as [|c r]; [exact I|]. apply numeral_class, Hall. now left. }
  assert (Hlast : match rev t with
                  | [] => True
                  | c :: _ => isSpace c = false /\ Ascii.eqb "."%char c = false
                  end).
  { destruct (rev t) as [|c r] eqn:E; [exact I|]. apply numeral_class, Hall.
    apply in_rev. rewrite E. now left. }
  split.
  - rewrite TrimSpace_fixed; [|exact Hhead|destruct (rev t); tauto].
    unfold TrimSuffix, HasSuffix. destruct (rev t) as [|c r] eqn:E.
    + apply (f_equal (@rev _)) in E. rewrite rev_involutive in E. now subst.
    + cbn [rev lit list_ascii_of_string app HasPrefix]. now rewrite (proj2 Hlast).
  - rewrite TrimSpace_fixed.
    + unfold TrimSuffix. rewrite (proj2 (HasSuffix_app _ _)) by now exists t.
      rewrite length_app. cbn [lit list_ascii_of_string length].
      replace (length t + 1 - 1) with (length t) by lia. apply firstn_length_app.
    + destruct t; [congruence|exact Hhead].
    + rewrite rev_app_distr. reflexivity.
Qed.

(** X17. [formatChapterTitle] turns a bare Roman numeral (letters I, V, X,
    L, C) or a decimal number, with or without a final dot, into "Chapter "
    followed by the numeral. *)
Theorem formatChapterTitle_numeral (t : gostring) :
  Spec.bareRoman t = true \/ (t <> [] /\ forallb digit t = true) ->
  formatChapterTitle t = lit "Chapter " ++ t
  /\ formatChapterTitle (t ++ lit ".") = lit "Chapter " ++ t.
Proof.
  intro H.
  assert (Hne : t <> []).
  { destruct H as [H|[H _]]; [|exact H]. destruct t; [discriminate|discriminate]. }
  assert (Hall : forallb (fun c => oneOf "IVXLC" c || digit c) t = true).
  { apply forallb_forall. intros c Hc. destruct H as [H|[_ H]].
    - unfold Spec.bareRoman in H. apply andb_true_iff in H as [_ H].
      rewrite forallb_forall in H. now rewrite (H c Hc).
    - rewrite forallb_forall in H. rewrite (H c Hc). apply orb_true_r. }
  destruct (numeral_trimmed t Hne Hall) as [Hplain Hdot].
  assert (Hmatch : MatchString reRoman t || MatchString reDigits t = true).
  { rewrite MatchString_reRoman. unfold reDigits. rewrite MatchString_all.
    destruct H as [-> | [_ ->]]; [reflexivity|].
    destruct t; [congruence|]. cbn [isEmpty negb andb]. apply orb_true_r. }
  unfold formatChapterTitle. rewrite Hplain, Hdot.
  destruct (MatchString reRoman t); [now split|].
  cbn [orb] in Hmatch. rewrite Hmatch. now split.
Qed.

Lemma formatChapterTitle_numeral_witness :
  formatChapterTitle (lit "XLII") = lit "Chapter XLII"
  /\ formatChapterTitle (lit "17.") = lit "Chapter 17".
Proof.
  split.
  - apply (proj1 (formatChapterTitle_numeral (lit "XLII") (or_introl eq_refl))).
  - change (formatChapterTitle (lit "17" ++ lit ".") = lit "Chapter " ++ lit "17").
    refine (proj2 (formatChapterTitle_numeral (lit "17") _)).
    right. split; [discriminate|vm_compute; reflexivity].
Defined.

End TitleFacts.

(** ** Chapters from plain text: what every chapter satisfies *)

Section TextChapters.

Import Calibre.





(** X19. Each of the two splitting strategies returns either the whole text
    as its single part, or at least three parts, each trimmed and longer
    than 500 bytes (star separators) or 100 bytes (heading patterns); neither
    ever returns an empty list. *)
Theorem split_strategies_result (content : gostring) :
  (splitByStarSeparator content = [content]
   \/ 3 <= length (splitByStarSeparator content)
      /\ Forall (fun part => TrimSpace part = part /\ 500 < length part)
                (splitByStarSeparator content))
  /\ (splitByChapterPatterns content = [content]
      \/ 3 <= length (splitByChapterPatterns content)
         /\ Forall (fun part => TrimSpace part = part /\ 100 < length part)
                   (splitByChapterPatterns content))
  /\ splitByStarSeparator content <> []
  /\ splitByChapterPatterns content <> [].
Proof.
  pose proof (splitByStarSeparator_cases content) as Hstar.
  pose proof (splitByChapterPatterns_cases content) as Hpat.
  split; [exact Hstar|]. split; [exact Hpat|]. split.
  - destruct Hstar as [->|[H _]]; [discriminate|].
    destruct (splitByStarSeparator content); [simpl in H; lia|discriminate].
  - destruct Hpat as [->|[H _]]; [discriminate|].
    destruct (splitByChapterPatterns content); [simpl in H; lia|discriminate].
Qed.

End TextChapters.

(** ** The extraction pipeline *)

Section Pipeline.

Import Calibre.

Variable xmlDecode : gostring -> option Ncx.NCX.



Lemma filter_length {A : Type} (f : A -> bool) (l : list A) :
  length (filter f l) <= length l.
Proof.
  induction l as [|x l IH]; cbn [filter length]; [lia|].
  destruct (f x); cbn [length]; lia.
Qed.

Lemma keepEntry_title (entry : Ncx.TOCEntry) :
  keepEntry entry = true -> 2 <= length (Ncx.Title entry).
Proof.
  unfold keepEntry.
  destruct (existsb _ skipPatterns); [discriminate|].
  destruct (length (Ncx.Title entry) <? 2) eqn:E; [discriminate|].
  intros _. now apply Nat.ltb_ge in E.
Qed.

(** The loop over the chapter entries appends, for some of the entries, a
    chapter that carries the entry's title and the text read at its
    reference. *)
Lemma originalNCXLoop_entries (epubPath : Ncx.epub) :
  forall chapterEntries i chapters,
  exists more,
    originalNCXLoop epubPath i chapterEntries chapters = chapters ++ more
    /\ length more <= length chapterEntries
    /\ Forall (fun ch => exists entry nextHref,
                 In entry chapterEntries
                 /\ (Ncx.Title entry <> [] -> Models.Title ch = Ncx.Title entry)
                 /\ Ncx.GetChapterContentRange epubPath (Ncx.Href entry) nextHref
                    = Ok (Models.Content ch)) more.
Proof.
  induction chapterEntries as [|entry rest IH]; intros i chapters; cbn [originalNCXLoop].
  - exists []. rewrite app_nil_r. repeat split; [simpl; lia|constructor].
  - set (nextHref := match rest with next :: _ => Ncx.Href next | [] => [] end).
    assert (Hskip : forall chapters',
               exists more,
                 originalNCXLoop epubPath (i + 1) rest chapters' = chapters' ++ more
                 /\ length more <= length (entry :: rest)
                 /\ Forall (fun ch => exists entry0 nextHref0,
                              In entry0 (entry :: rest)
                              /\ (Ncx.Title entry0 <> [] -> Models.Title ch = Ncx.Title entry0)
                              /\ Ncx.GetChapterContentRange epubPath (Ncx.Href entry0) nextHref0
                                 = Ok (Models.Content ch)) more).
    { intro chapters'. destruct (IH (i + 1)%Z chapters') as [more [H1 [H2 H3]]].
      exists more. split; [exact H1|]. split; [cbn [length]; lia|].
      eapply Forall_impl; [|exact H3].
      intros ch [entry0 [nextHref0 [Hin Hrest]]]. exists entry0, nextHref0.
      split; [now right|exact Hrest]. }
    destruct (Ncx.GetChapterContentRange epubPath (Ncx.Href entry) nextHref)
      as [content|e] eqn:E; [|apply Hskip].
    destruct (length (Fields content) <? 50); [apply Hskip|].
    match goal with
    | |- context [chapters ++ [?c]] => set (ch := c)
    end.
    destruct (Hskip (chapters ++ [ch])) as [more [H1 [H2 H3]]].
    destruct (IH (i + 1)%Z (chapters ++ [ch])) as [more' [H1' [H2' _]]].
    assert (more' = more) by (rewrite H1 in H1'; now apply app_inv_head in H1').
    subst more'.
    exists (ch :: more). rewrite H1, <- app_assoc. split; [reflexivity|].
    split; [cbn [length]; lia|]. constructor; [|exact H3].
    exists entry, nextHref. split; [now left|]. split.
    + intro Hne. subst ch. cbn [Models.NewChapter Models.Title].
      destruct (isEmpty (Ncx.Title entry)) eqn:Ee; [|reflexivity].
      apply isEmpty_true in Ee. congruence.
    + subst ch. cbn [Models.NewChapter Models.Content]. exact E.
Qed.

Lemma extractChaptersFromOriginalNCX_run (epubPath : Ncx.epub) (chapters : list Models.Chapter) :
  extractChaptersFromOriginalNCX xmlDecode epubPath = Ok chapters ->
  exists ncxDoc,
    Ncx.ExtractNCXFromEPUB xmlDecode epubPath = Ok ncxDoc
    /\ chapters = originalNCXLoop epubPath 0 (filterChapterEntries (Ncx.GetTOC ncxDoc)) []
    /\ chapters <> [].
Proof.
  unfold extractChaptersFromOriginalNCX.
  destruct (Ncx.ExtractNCXFromEPUB xmlDecode epubPath) as [ncxDoc|e]; [|discriminate].
  destruct (length (Ncx.GetTOC ncxDoc) =? 0); [discriminate|].
  destruct (length (filterChapterEntries (Ncx.GetTOC ncxDoc)) =? 0); [discriminate|].
  destruct (length (originalNCXLoop _ _ _ _) =? 0) eqn:E; [discriminate|].
  intro H; injection H as <-. exists ncxDoc. split; [reflexivity|]. split; [reflexivity|].
  intro Hnil. rewrite Hnil in E. discriminate E.
Qed.

(** X20. When the extraction from the original navigation document
    succeeds, the chapters are at least one and at most as many as the
    entries of the table of contents, and they are numbered 0, 1, 2, ...
    without gap.  Every chapter carries the title of an entry that the
    filter keeps, of 2 bytes or more, so that the fallback title
    [Chapter N] is never used on this path, and its content is the text read
    at that entry's reference, without [<] nor [>]. *)
Theorem extractChaptersFromOriginalNCX_chapters
    (epubPath : Ncx.epub) (chapters : list Models.Chapter) :
  extractChaptersFromOriginalNCX xmlDecode epubPath = Ok chapters ->
  exists ncxDoc,
    Ncx.ExtractNCXFromEPUB xmlDecode epubPath = Ok ncxDoc
    /\ 1 <= length chapters <= length (Ncx.GetTOC ncxDoc)
    /\ map Models.Index chapters = map Z.of_nat (seq 0 (length chapters))
    /\ Forall (fun ch => exists entry nextHref,
                 In entry (Ncx.GetTOC ncxDoc) /\ keepEntry entry = true
                 /\ Models.Title ch = Ncx.Title entry
                 /\ 2 <= length (Models.Title ch)
                 /\ Ncx.GetChapterContentRange epubPath (Ncx.Href entry) nextHref
                    = Ok (Models.Content ch)
                 /\ ~ In LT (Models.Content ch) /\ ~ In GT (Models.Content ch))
              chapters.
Proof.
  intro H. destruct (extractChaptersFromOriginalNCX_run _ _ H) as [ncxDoc [Hdoc [Hrun Hne]]].
  exists ncxDoc. split; [exact Hdoc|].
  destruct (originalNCXLoop_entries epubPath (filterChapterEntries (Ncx.GetTOC ncxDoc)) 0 [])
    as [more [H1 [H2 H3]]].
  cbn [app] in H1. rewrite H1 in Hrun. subst more.
  split; [|split].
  - split.
    + destruct chapters; [congruence|cbn [length]; lia].
    + rewrite filterChapterEntries_filter in H2.
      pose proof (filter_length keepEntry (Ncx.GetTOC ncxDoc)). lia.
  - apply (extractChaptersFromOriginalNCX_dense xmlDecode epubPath). exact H.
  - eapply Forall_impl; [|exact H3].
    intros ch [entry [nextHref [Hin [Htitle Hcontent]]]].
    rewrite filterChapterEntries_filter in Hin. apply filter_In in Hin as [Hin Hkeep].
    pose proof (keepEntry_title entry Hkeep) as Hlen.
    assert (Ht : Models.Title ch = Ncx.Title entry).
    { apply Htitle. intro Hnil. rewrite Hnil in Hlen. simpl in Hlen. lia. }
    exists entry, nextHref. repeat split; try assumption.
    + now rewrite Ht.
    + intro Hc. destruct epubPath as [files|]; [|discriminate Hcontent].
      unfold Ncx.GetChapterContentRange in Hcontent.
      destruct (Ncx.hrefRange _ _) as [[filePath startFragment] endFragment].
      rewrite readChapterFile_find in Hcontent.
      destruct (find _ files) as [f|]; [|discriminate].
      destruct (Ncx.Body f); [|discriminate].
      injection Hcontent as Hcontent. rewrite <- Hcontent in Hc.
      now apply htmlToText_no_delimiters in Hc.
    + intro Hc. destruct epubPath as [files|]; [|discriminate Hcontent].
      unfold Ncx.GetChapterContentRange in Hcontent.
      destruct (Ncx.hrefRange _ _) as [[filePath startFragment] endFragment].
      rewrite readChapterFile_find in Hcontent.
      destruct (find _ files) as [f|]; [|discriminate].
      destruct (Ncx.Body f); [|discriminate].
      injection Hcontent as Hcontent. rewrite <- Hcontent in Hc.
      now apply htmlToText_no_delimiters in Hc.
Qed.

(** The loop over the entries of the converted book appends, for each entry
    whose file is read, a chapter numbered by the position of the entry. *)
Lemma calibreNCXLoop_entries (epubPath : Ncx.epub) :
  forall tocEntries i chapters,
  exists more,
    calibreNCXLoop epubPath i tocEntries chapters = chapters ++ more
    /\ length more <= length tocEntries
    /\ StronglySorted Z.lt (map Models.Index more)
    /\ Forall (fun ch => (i <= Models.Index ch)%Z /\ exists entry,
                 nth_error tocEntries (Z.to_nat (Models.Index ch - i)) = Some entry
                 /\ Models.Title ch = titleOf entry (Models.Index ch)
                 /\ Ncx.GetChapterContent epubPath (Ncx.Href entry)
                    = Ok (Models.Content ch)) more.
Proof.
  induction tocEntries as [|entry rest IH]; intros i chapters; cbn [calibreNCXLoop].
  - exists []. rewrite app_nil_r. repeat split; [simpl; lia|constructor|constructor].
  - assert (Hlift : forall more,
               Forall (fun ch => (i + 1 <= Models.Index ch)%Z /\ exists entry0,
                          nth_error rest (Z.to_nat (Models.Index ch - (i + 1))) = Some entry0
                          /\ Models.Title ch = titleOf entry0 (Models.Index ch)
                          /\ Ncx.GetChapterContent epubPath (Ncx.Href entry0)
                             = Ok (Models.Content ch)) more ->
               Forall (fun ch => (i < Models.Index ch)%Z /\ exists entry0,
                          nth_error (entry :: rest) (Z.to_nat (Models.Index ch - i))
                          = Some entry0
                          /\ Models.Title ch = titleOf entry0 (Models.Index ch)
                          /\ Ncx.GetChapterContent epubPath (Ncx.Href entry0)
                             = Ok (Models.Content ch)) more).
    { intros more Hm. eapply Forall_impl; [|exact Hm].
      intros ch [Hi [entry0 [Hnth Hrest]]]. split; [lia|]. exists entry0.
      split; [|exact Hrest].
      replace (Z.to_nat (Models.Index ch - i))
        with (S (Z.to_nat (Models.Index ch - (i + 1)))) by lia.
      exact Hnth. }
    destruct (Ncx.GetChapterContent epubPath (Ncx.Href entry)) as [content|e] eqn:E.
    + match goal with
      | |- context [chapters ++ [?c]] => set (ch := c)
      end.
      destruct (IH (i + 1)%Z (chapters ++ [ch])) as [more [H1 [H2 [H3 H4]]]].
      apply Hlift in H4.
      exists (ch :: more). rewrite H1, <- app_assoc. split; [reflexivity|].
      split; [cbn [length]; lia|]. split; [|constructor].
      * cbn [map]. constructor; [exact H3|].
        rewrite Forall_map. eapply Forall_impl; [|exact H4].
        intros c [Hc _]. subst ch. cbn [Models.NewChapter Models.Index]. exact Hc.
      * subst ch. cbn [Models.NewChapter Models.Index Models.Title Models.Content].
        split; [lia|]. exists entry. rewrite Z.sub_diag. cbn [Z.to_nat nth_error].
        repeat split. exact E.
      * eapply Forall_impl; [|exact H4]. intros c [Hc Hrest]. split; [lia|exact Hrest].
    + destruct (IH (i + 1)%Z chapters) as [more [H1 [H2 [H3 H4]]]].
      apply Hlift in H4.
      exists more. split; [exact H1|]. split; [cbn [length]; lia|]. split; [exact H3|].
      eapply Forall_impl; [|exact H4]. intros c [Hc Hrest]. split; [lia|exact Hrest].
Qed.

Lemma extractChaptersWithCalibreNCX_run (w : world) (chapters : list Models.Chapter) :
  extractChaptersWithCalibreNCX xmlDecode w = Ok chapters ->
  exists epubPath ncxDoc,
    converted w = Some epubPath
    /\ Ncx.ExtractNCXFromEPUB xmlDecode epubPath = Ok ncxDoc
    /\ chapters = calibreNCXLoop epubPath 0 (Ncx.GetTOC ncxDoc) []
    /\ chapters <> [].
Proof.
  unfold extractChaptersWithCalibreNCX.
  destruct (converted w) as [epubPath|]; [|discriminate].
  destruct (Ncx.ExtractNCXFromEPUB xmlDecode epubPath) as [ncxDoc|e] eqn:Edoc; [|discriminate].
  destruct (length (Ncx.GetTOC ncxDoc) =? 0); [discriminate|].
  destruct (length (calibreNCXLoop _ _ _ _) =? 0) eqn:E; [discriminate|].
  intro H; injection H as <-. exists epubPath, ncxDoc.
  split; [reflexivity|]. split; [exact Edoc|]. split; [reflexivity|].
  intro Hnil. rewrite Hnil in E. discriminate E.
Qed.

Lemma titleOf_nonempty (entry : Ncx.TOCEntry) (i : Z) : titleOf entry i <> [].
Proof.
  unfold titleOf. destruct (isEmpty (Ncx.Title entry)) eqn:E.
  - discriminate.
  - now apply isEmpty_false.
Qed.

(** X21. When the extraction from the converted book succeeds, the chapters
    are at least one and at most as many as the entries of its table of
    contents, and their indices increase strictly.  The index of a chapter
    is the position of its entry in the table of contents, not the position
    of the chapter in the result; its title is the entry's title, or
    [Chapter] and the index plus one when the entry has none, and is never
    empty; its content is the text of the entry's file. *)
Theorem extractChaptersWithCalibreNCX_chapters (w : world) (chapters : list Models.Chapter) :
  extractChaptersWithCalibreNCX xmlDecode w = Ok chapters ->
  exists epubPath ncxDoc,
    converted w = Some epubPath
    /\ Ncx.ExtractNCXFromEPUB xmlDecode epubPath = Ok ncxDoc
    /\ 1 <= length chapters <= length (Ncx.GetTOC ncxDoc)
    /\ StronglySorted Z.lt (map Models.Index chapters)
    /\ Forall (fun ch => exists entry,
                 (0 <= Models.Index ch < Z.of_nat (length (Ncx.GetTOC ncxDoc)))%Z
                 /\ nth_error (Ncx.GetTOC ncxDoc) (Z.to_nat (Models.Index ch)) = Some entry
                 /\ Models.Title ch = titleOf entry (Models.Index ch)
                 /\ Models.Title ch <> []
                 /\ Ncx.GetChapterContent epubPath (Ncx.Href entry)
                    = Ok (Models.Content ch))
              chapters.
Proof.
  intro H.
  destruct (extractChaptersWithCalibreNCX_run _ _ H) as [epubPath [ncxDoc [Hc [Hdoc [Hrun Hne]]]]].
  exists epubPath, ncxDoc. split; [exact Hc|]. split; [exact Hdoc|].
  destruct (calibreNCXLoop_entries epubPath (Ncx.GetTOC ncxDoc) 0 [])
    as [more [H1 [H2 [H3 H4]]]].
  cbn [app] in H1. rewrite H1 in Hrun. subst more.
  split; [|split; [exact H3|]].
  - split; [|exact H2]. destruct chapters; [congruence|cbn [length]; lia].
  - eapply Forall_impl; [|exact H4].
    intros ch [Hi [entry [Hnth [Htitle Hcontent]]]]. rewrite Z.sub_0_r in Hnth.
    exists entry. repeat split; try assumption.
    + assert (Hlt : Z.to_nat (Models.Index ch) < length (Ncx.GetTOC ncxDoc))
        by (apply nth_error_Some; congruence).
      lia.
    + rewrite Htitle. apply titleOf_nonempty.
Qed.


Lemma extractChaptersWithNCX_cases (w : world) (chapters : list Models.Chapter) :
  extractChaptersWithNCX xmlDecode w = Ok chapters ->
  HasSuffix (ToLower (ebookPath w)) (lit ".epub") = true
  /\ extractChaptersFromOriginalNCX xmlDecode (original w) = Ok chapters
  /\ 3 <= length chapters
  \/ extractChaptersWithCalibreNCX xmlDecode w = Ok chapters.
Proof.
  unfold extractChaptersWithNCX.
  destruct (HasSuffix (ToLower (ebookPath w)) (lit ".epub")); [|now right].
  destruct (extractChaptersFromOriginalNCX xmlDecode (original w)) as [cs|e]; [|now right].
  destruct (3 <=? length cs) eqn:E; [|now right].
  intro H; injection H as <-. left. apply Nat.leb_le in E. now repeat split.
Qed.

Lemma extractChaptersWithNCX_nonempty (w : world) (chapters : list Models.Chapter) :
  extractChaptersWithNCX xmlDecode w = Ok chapters -> chapters <> [].
Proof.
  intro H. apply extractChaptersWithNCX_cases in H as [[_ [H _]]|H].
  - now destruct (extractChaptersFromOriginalNCX_run _ _ H) as [? [_ [_ Hne]]].
  - now destruct (extractChaptersWithCalibreNCX_run _ _ H) as [? [? [_ [_ [_ Hne]]]]].
Qed.



(** X23. With the tool found and the temporary directory made:  a book
    whose name ends with [.epub], in any case of the letters, and whose own
    navigation document gives three chapters or more, is answered with these
    chapters, whatever the conversions would give;  a book whose name does
    not end so is answered without its archive being read;  and a success of
    the navigation path is always returned as it is, so that the text path
    runs exactly when the navigation path fails. *)
Theorem ExtractChaptersWithOptions_order (w : world) :
  isEmpty (ebookConvert w) = false -> tempDir w = true ->
  (forall chapters,
      HasSuffix (ToLower (ebookPath w)) (lit ".epub") = true ->
      extractChaptersFromOriginalNCX xmlDecode (original w) = Ok chapters ->
      3 <= length chapters ->
      ExtractChaptersWithOptions xmlDecode w = Ok chapters)
  /\ (HasSuffix (ToLower (ebookPath w)) (lit ".epub") = false ->
      forall o, ExtractChaptersWithOptions xmlDecode (withOriginal w o)
                = ExtractChaptersWithOptions xmlDecode w)
  /\ (forall chapters,
         extractChaptersWithNCX xmlDecode w = Ok chapters ->
         ExtractChaptersWithOptions xmlDecode w = Ok chapters)
  /\ (forall e,
         extractChaptersWithNCX xmlDecode w = Err e ->
         ExtractChaptersWithOptions xmlDecode w = extractChaptersWithText w).
Proof.
  intros Htool Htmp.
  assert (Hok : forall chapters,
             extractChaptersWithNCX xmlDecode w = Ok chapters ->
             ExtractChaptersWithOptions xmlDecode w = Ok chapters).
  { intros chapters H. unfold ExtractChaptersWithOptions.
    rewrite Htool, Htmp, H. cbn [negb].
    apply extractChaptersWithNCX_nonempty in H.
    destruct chapters; [congruence|reflexivity]. }
  split; [|split; [|split]].
  - intros chapters Hsuffix Horig Hlen. apply Hok.
    unfold extractChaptersWithNCX. rewrite Hsuffix, Horig.
    apply Nat.leb_le in Hlen. now rewrite Hlen.
  - intros Hsuffix o.
    unfold ExtractChaptersWithOptions, extractChaptersWithNCX, extractChaptersWithCalibreNCX,
      extractChaptersWithText, withOriginal.
    cbn [ebookPath ebookConvert tempDir original converted textOutput].
    now rewrite Hsuffix.
  - exact Hok.
  - intros e H. unfold ExtractChaptersWithOptions. now rewrite Htool, Htmp, H.
Qed.

End Pipeline.

Lemma extractChaptersFromOriginalNCX_chapters_witness :
  exists chapters,
    Calibre.extractChaptersFromOriginalNCX Sample.decode Sample.book = Ok chapters
    /\ map Models.Index chapters = map Z.of_nat (seq 0 (length chapters))
    /\ Forall (fun ch => 2 <= length (Models.Title ch)) chapters.
Proof.
  destruct (Calibre.extractChaptersFromOriginalNCX Sample.decode Sample.book)
    as [chapters|e] eqn:E; [|vm_compute in E; discriminate E].
  exists chapters. split; [reflexivity|].
  destruct (extractChaptersFromOriginalNCX_chapters Sample.decode Sample.book chapters E)
    as [ncxDoc [_ [_ [Hdense Hall]]]].
  split; [exact Hdense|].
  eapply Forall_impl; [|exact Hall].
  intros ch [entry [nextHref [_ [_ [_ [Hlen _]]]]]]. exact Hlen.
Defined.

Lemma extractChaptersWithCalibreNCX_chapters_witness :
  exists chapters,
    Calibre.extractChaptersWithCalibreNCX Sample.decode Sample.world = Ok chapters
    /\ StronglySorted Z.lt (map Models.Index chapters)
    /\ Forall (fun ch => Models.Title ch <> []) chapters.
Proof.
  destruct (Calibre.extractChaptersWithCalibreNCX Sample.decode Sample.world)
    as [chapters|e] eqn:E; [|vm_compute in E; discriminate E].
  exists chapters. split; [reflexivity|].
  destruct (extractChaptersWithCalibreNCX_chapters Sample.decode Sample.world chapters E)
    as [epubPath [ncxDoc [_ [_ [_ [Hsorted Hall]]]]]].
  split; [exact Hsorted|].
  eapply Forall_impl; [|exact Hall].
  intros ch [entry [_ [_ [_ [Hne _]]]]]. exact Hne.
Defined.

Lemma ExtractChaptersWithOptions_order_witness :
  Calibre.ExtractChaptersWithOptions Sample.decode Sample.epubWorld
  = Calibre.extractChaptersFromOriginalNCX Sample.decode Sample.fullBook
  /\ Sample.indices (Calibre.extractChaptersFromOriginalNCX Sample.decode Sample.fullBook)
     = Some [0; 1; 2; 3]%Z.
Proof.
  split; [|vm_compute; reflexivity].
  destruct (Calibre.extractChaptersFromOriginalNCX Sample.decode Sample.fullBook)
    as [chapters|e] eqn:E; [|vm_compute in E; discriminate E].
  apply (proj1 (ExtractChaptersWithOptions_order Sample.decode Sample.epubWorld
                  eq_refl eq_refl) chapters).
  - vm_compute. reflexivity.
  - exact E.
  - assert (H : length chapters = 4).
    { apply (f_equal (fun r => match r with Ok cs => length cs | Err _ => 0 end)) in E.
      vm_compute in E. symmetry. exact E. }
    rewrite H. lia.
Defined.

(** ** Fixed points *)

Section FixedPoints.

Import Ncx Calibre.





Lemma ToLower_Join (words : list gostring) (sep : gostring) :
  ToLower (Join words sep) = Join (map ToLower words) (ToLower sep).
Proof.
  unfold ToLower. induction words as [|w ws IH]; [reflexivity|].
  destruct ws as [|w' ws]; [reflexivity|].
  change (Join (w :: w' :: ws) sep) with (w ++ sep ++ Join (w' :: ws) sep).
  rewrite !map_app, IH. reflexivity.
Qed.







End FixedPoints.

Example ex_strings :
  Index (lit "abcabc") (lit "ca") = Some 2
  /\ TrimSpace (lit "  a b  ") = lit "a b"
  /\ Split (lit "a,b,,c") ","%char = [lit "a"; lit "b"; []; lit "c"]
  /\ Split [] ","%char = [[]]
  /\ Fields (lit "  a  bb ccc ") = [lit "a"; lit "bb"; lit "ccc"]
  /\ ReplaceAll (lit "<p>a</p><p>") (lit "<p") (LF :: lit "<p") = LF :: lit "<p>a</p>" ++ LF :: lit "<p>"
  /\ itoa 12 = lit "12" /\ itoa 0 = lit "0" /\ itoa (-3) = lit "-3"
  /\ ToLower (lit "AbC z") = lit "abc z"
  /\ SplitN2 (lit "a#b#c") "#"%char = (lit "a", Some (lit "b#c"))
  /\ TrimSuffix (lit "3.") (lit ".") = lit "3"
  /\ Join [lit "a"; lit "b"] (lit ", ") = lit "a, b".
Proof. vm_compute. repeat split. Qed.

Example ex_clean :
  Filepath.Clean (lit "a//b/./c/..") = lit "a/b"
  /\ Filepath.Clean (lit "../../a") = lit "../../a"
  /\ Filepath.Clean (lit "/../a") = lit "/a"
  /\ Filepath.Clean (lit "a/..") = lit "."
  /\ Filepath.Clean (lit "a/../../b") = lit "../b"
  /\ Filepath.Clean (lit "/") = lit "/"
  /\ Filepath.Clean (lit "OEBPS/ch1.html") = lit "OEBPS/ch1.html"
  /\ Filepath.Clean [] = lit ".".
Proof. vm_compute. repeat split. Qed.

Example ex_regexp :
  let starSep := Regexp.seqs [Regexp.Lit LF; Regexp.star Regexp.space; Regexp.Lit "*"; Regexp.star Regexp.space;
                              Regexp.Lit "*"; Regexp.star Regexp.space; Regexp.Lit "*"; Regexp.star Regexp.space; Regexp.Lit LF] in
  Regexp.Split starSep (lit "ab" ++ LF :: lit "* * *" ++ LF :: LF :: lit "cd" ++ LF :: lit "***" ++ [LF])
   = [lit "ab"; lit "cd"; []]
  /\ Regexp.FindAllStringIndex starSep (lit "ab" ++ LF :: lit "* * *" ++ LF :: lit "* * *" ++ LF :: lit "cd") = [(2, 9)]
  /\ Regexp.Split starSep (lit "abc") = [lit "abc"]
  /\ Regexp.FindStringSubmatch
       (Regexp.seqs [Regexp.BeginText; Regexp.Group 1 (Regexp.plus (Regexp.oneOf "IVXLC")); Regexp.Lit ".";
                     Regexp.plus Regexp.space; Regexp.Group 2 (Regexp.plus Regexp.dot); Regexp.EndText]) 2 (lit "IV. The end")
     = [lit "IV. The end"; lit "IV"; lit "The end"].
Proof. vm_compute. repeat split. Qed.

Example ex_ncx :
  Ncx.htmlToText (lit "<html><style>p{}</style><p>Hello <b>big</b></p><div> world </div><script>x</script></html>")
    = lit "Hello big" ++ [LF; LF] ++ lit "world"
  /\ Ncx.removeTag (lit "a<script>b</script>c<SCRIPT>d</script>e<script>f") (lit "script") = lit "ace<script>f"
  /\ Ncx.extractFragmentContent (lit "<p id='a'>A</p><p name='b'>B</p>") (lit "a") (lit "b") = lit "id='a'>A</p><p "
  /\ Models.countWords (lit "  a  bb" ++ [LF; LF] ++ lit "ccc ") = 3%Z.
Proof. vm_compute. repeat split. Qed.

Example ex_calibre :
  Calibre.detectChapterTitle (lit "IV" ++ LF :: lit "THE LONG NIGHT") 7 = lit "Chapter IV: The Long Night"
  /\ Calibre.detectChapterTitle (lit "3.") 7 = lit "Chapter 3"
  /\ Calibre.detectChapterTitle (lit "A SHORT LINE") 7 = lit "A Short Line"
  /\ Calibre.detectChapterTitle (lit "abc") 7 = lit "Chapter 7"
  /\ Calibre.detectChapterTitle (lit "II. OF THE SECOND PART") 7 = lit "Chapter II: Of The Second Part"
  /\ Calibre.detectChapterTitle (lit "Chapter 12 - Home") 7 = lit "Chapter 12 - Home"
  /\ map Models.Index (Calibre.splitIntoChapters (lit "abc" ++ FF :: FF :: lit "def")) = [0; 2]%Z
  /\ Calibre.splitIntoChapters [] = []
  /\ map Ncx.Title (Calibre.filterChapterEntries
       [Ncx.mkTOCEntry (lit "Copyright Notice") 1 [] 1 [];
        Ncx.mkTOCEntry (lit "Chapter One: The Beginning") 1 [] 2 [];
        Ncx.mkTOCEntry (lit "IV. Foo") 1 [] 3 [];
        Ncx.mkTOCEntry (lit "Foo") 1 [] 4 []]) = [lit "Chapter One: The Beginning"; lit "IV. Foo"].
Proof. vm_compute. repeat split. Qed.
